(** * Patient Management System: a shallow embedding of [main.py] and [util.py]

    The service keeps a collection of patient records in one JSON file
    ([patients.json]).  Every request handler of [main.py] loads the whole
    file, works on the in-memory dictionary and, for writes, stores the whole
    dictionary back.  The embedding below follows the handlers statement by
    statement:

    - Python dictionaries are insertion-ordered association lists, because
      [sort_patients] iterates [data.values()] in file order;
    - the JSON file is an explicit state, threaded through a small
      state-and-exception monad in which an exception keeps the state
      (a request that raises leaves whatever it had already written);
    - Python floats are IEEE binary64 numbers ([spec_float] with precision
      53 and maximal exponent 1024);
    - the pydantic models [Patient] and [PatientUpdate] are records, their
      validators and [model_dump] are functions on JSON values.

    What the source takes from its run-time platform and does not define
    itself (the C library's [pow], pydantic's lax coercions of booleans,
    floats and numeric strings) is gathered in the class [Platform]. *)

From Stdlib Require Import ZArith QArith Qminmax Bool List String Ascii Lia.
From Stdlib Require Import Permutation Sorted.
From Stdlib Require Import Floats.SpecFloat.
Import ListNotations.

Local Open Scope Z_scope.
Local Open Scope string_scope.

(** ** Exceptions and results *)

(** One entry of a pydantic validation error: what is wrong with a field. *)
Inductive reason :=
  | Missing          (* the key is absent *)
  | StringType       (* not a string *)
  | StringTooShort
  | StringTooLong
  | IntType          (* not an integer, and not coercible to one *)
  | FloatType        (* not a number, and not coercible to one *)
  | GreaterThan      (* violates gt=0 *)
  | LiteralError.    (* not one of the literals *)

(** The exceptions a handler can leave with. *)
Inductive error :=
  | HTTPException (status_code : Z) (detail : string)
  | ValidationError (errors : list (string * reason))
  | ZeroDivisionError
  | OverflowError
  | TypeError
  | ValueError          (* JSONResponse refuses inf and nan *)
  | StorageError.       (* patients.json missing or not JSON *)

Inductive result (A : Type) :=
  | Ok (a : A)
  | Err (e : error).
Arguments Ok {A} a.
Arguments Err {A} e.

Definition rbind {A B} (r : result A) (k : A -> result B) : result B :=
  match r with
  | Ok a => k a
  | Err e => Err e
  end.

Declare Scope result_scope.
Delimit Scope result_scope with result.
Notation "x <- c ;; k" := (rbind c (fun x => k))
  (at level 61, c at next level, right associativity) : result_scope.

(** The names the specification gives to the HTTP errors of the handlers. *)
Definition NotFound : error := HTTPException 404 "Patient not found".
Definition Conflict : error := HTTPException 400 "Patient ID already exists".
Definition InvalidSortField : error :=
  HTTPException 400
    "Invalid sort field. Must be one of ['bmi', 'weight', 'height']".
Definition InvalidOrder : error :=
  HTTPException 400 "Invalid order. Must be 'asc' or 'desc'".

(** [InvalidArgument]: a 400 raised by the argument checks of [sort_patients]. *)
Definition InvalidArgument (e : error) : Prop :=
  e = InvalidSortField \/ e = InvalidOrder.

(** ** Python strings (ASCII)

    Identifiers are modelled as ASCII strings: [str.strip] removes the ASCII
    whitespace characters of [str.isspace] from both ends and [str.upper]
    maps [a-z] to [A-Z]; every other character is left alone. *)

Definition isspace (c : ascii) : bool :=
  let n := N_of_ascii c in
  ((9 <=? n) && (n <=? 13) || (28 <=? n) && (n <=? 32))%N.

Definition upper_char (c : ascii) : ascii :=
  let n := N_of_ascii c in
  if ((97 <=? n) && (n <=? 122))%N then ascii_of_N (n - 32) else c.

Fixpoint lstrip (s : string) : string :=
  match s with
  | EmptyString => EmptyString
  | String c s' => if isspace c then lstrip s' else s
  end.

Fixpoint rstrip (s : string) : string :=
  match s with
  | EmptyString => EmptyString
  | String c s' =>
      match rstrip s' with
      | EmptyString => if isspace c then EmptyString else String c EmptyString
      | t => String c t
      end
  end.

Definition strip (s : string) : string := rstrip (lstrip s).

Fixpoint upper (s : string) : string :=
  match s with
  | EmptyString => EmptyString
  | String c s' => String (upper_char c) (upper s')
  end.

(** [x in xs] for a list of strings. *)
Definition str_in (x : string) (xs : list string) : bool :=
  existsb (String.eqb x) xs.

(** ** Python floats *)

Definition float := spec_float.

Definition prec : Z := 53.
Definition emax : Z := 1024.

(** The binary64 number nearest to [n / d] (ties to even): how a decimal
    literal such as [18.5 = 185/10] is read. *)
Definition float_of_ratio (n : Z) (d : positive) : float :=
  match n with
  | Z0 => S754_zero false
  | Zpos p => SFdiv prec emax (S754_finite false p 0) (S754_finite false d 0)
  | Zneg p => SFdiv prec emax (S754_finite true p 0) (S754_finite false d 0)
  end.

(** [float(n)] for a Python integer: [None] is Python's OverflowError. *)
Definition float_of_int (n : Z) : option float :=
  match float_of_ratio n 1 with
  | S754_infinity _ => None
  | f => Some f
  end.

Definition is_finite (f : float) : bool :=
  match f with
  | S754_zero _ | S754_finite _ _ _ => true
  | S754_infinity _ | S754_nan => false
  end.

(** The value a number stands for: a rational, an infinity, or none. *)
Inductive xnum :=
  | XNaN
  | XInf (negative : bool)
  | XFin (q : Q).

Definition float_val (f : float) : xnum :=
  match f with
  | S754_nan => XNaN
  | S754_infinity s => XInf s
  | S754_zero _ => XFin 0
  | S754_finite s m e => XFin ((cond_Zopp s (Zpos m) # 1) * (2 # 1) ^ e)
  end.

(** Comparison of values; every comparison with a NaN is false. *)
Definition x_ltb (a b : xnum) : bool :=
  match a, b with
  | XNaN, _ | _, XNaN => false
  | XInf true, XInf true => false
  | XInf true, _ => true
  | _, XInf true => false
  | XInf false, _ => false
  | _, XInf false => true
  | XFin p, XFin q => match (p ?= q)%Q with Lt => true | _ => false end
  end.

Definition x_leb (a b : xnum) : bool :=
  match a, b with
  | XNaN, _ | _, XNaN => false
  | XInf true, _ => true
  | _, XInf true => false
  | _, XInf false => true
  | XInf false, _ => false
  | XFin p, XFin q => match (p ?= q)%Q with Gt => false | _ => true end
  end.

(** [a < b] and [a <= b] on floats. *)
Definition float_lt (a b : float) : bool := x_ltb (float_val a) (float_val b).
Definition float_le (a b : float) : bool := x_leb (float_val a) (float_val b).

(** [a / b] on floats: Python raises on a zero divisor, IEEE otherwise. *)
Definition float_div (a b : float) : result float :=
  match b with
  | S754_zero _ => Err ZeroDivisionError
  | _ => Ok (SFdiv prec emax a b)
  end.

(** Rounding [n / d] (with [d > 0]) to the nearest integer, ties to even. *)
Definition round_half_even (n : Z) (d : Z) : Z :=
  let q := n / d in
  let r := n mod d in
  match Z.compare (2 * r) d with
  | Lt => q
  | Gt => q + 1
  | Eq => if Z.even q then q else q + 1
  end.

(** [round(x, 2)]: infinities and NaN round to themselves; a finite [x] is
    rounded, from its exact value, to the nearest multiple of 1/100 (ties to
    even), and the decimal result is read back as a float.  The sign is kept,
    so that [round(-0.001, 2)] is [-0.0]. *)
Definition round2 (x : float) : float :=
  match x with
  | S754_finite s m e =>
      let k :=
        match e with
        | Zneg p => round_half_even (100 * Zpos m) (2 ^ Zpos p)
        | _ => 100 * Zpos m * 2 ^ e
        end in
      match k with
      | Z0 => S754_zero s
      | _ => float_of_ratio (cond_Zopp s k) 100
      end
  | _ => x
  end.

(** ** The run-time platform

    [libm_pow2 x] is the C library's [pow(x, 2.0)] for a finite non-zero [x];
    it is close to, but not always equal to, the correctly rounded square.
    [lax_int] and [lax_float] are pydantic's lax-mode coercions of the JSON
    values that are not already of the field's type (booleans, floats with
    no fractional part, numeric strings). *)

Inductive json :=
  | JNull
  | JBool (b : bool)
  | JInt (z : Z)
  | JFloat (f : float)
  | JStr (s : string).

Class Platform := {
  libm_pow2 : float -> float;
  lax_int : json -> option Z;
  lax_float : json -> option float
}.

(** [x ** 2] on floats.  Python answers for NaN, the infinities and zero
    itself, calls [pow] for the rest, and turns an infinite result of a
    finite argument into an OverflowError; a result that underflows to zero
    is returned as it is. *)
Definition float_pow2 `{Platform} (x : float) : result float :=
  match x with
  | S754_nan => Ok S754_nan
  | S754_infinity _ => Ok (S754_infinity false)
  | S754_zero _ => Ok (S754_zero false)
  | S754_finite _ _ _ =>
      match libm_pow2 x with
      | S754_infinity _ => Err OverflowError
      | r => Ok r
      end
  end.

(** ** Python dictionaries

    Insertion-ordered: assigning to an existing key keeps its place,
    assigning to a new key appends. *)
Section Dict.
Context {V : Type}.

Definition dict := list (string * V).

Fixpoint dict_get (k : string) (d : dict) : option V :=
  match d with
  | [] => None
  | (k', v) :: d' => if String.eqb k k' then Some v else dict_get k d'
  end.

(** [k in d] *)
Definition dict_mem (k : string) (d : dict) : bool :=
  match dict_get k d with
  | Some _ => true
  | None => false
  end.

(** [d[k] = v] *)
Fixpoint dict_set (k : string) (v : V) (d : dict) : dict :=
  match d with
  | [] => [(k, v)]
  | (k', v') :: d' =>
      if String.eqb k k' then (k, v) :: d' else (k', v') :: dict_set k v d'
  end.

(** [del d[k]] *)
Fixpoint dict_del (k : string) (d : dict) : dict :=
  match d with
  | [] => []
  | (k', v') :: d' =>
      if String.eqb k k' then dict_del k d' else (k', v') :: dict_del k d'
  end.

Definition dict_keys (d : dict) : list string := map fst d.
Definition dict_values (d : dict) : list V := map snd d.

(** [d.get(k, default)] *)
Definition dict_get_default (k : string) (default : V) (d : dict) : V :=
  match dict_get k d with
  | Some v => v
  | None => default
  end.

(** [for key, value in items: d[key] = value] *)
Definition dict_update (items : dict) (d : dict) : dict :=
  fold_left (fun acc kv => dict_set (fst kv) (snd kv) acc) items d.
End Dict.
Arguments dict V : clear implicits.

(** One stored patient, and the whole content of [patients.json]. *)
Definition record := dict json.
Definition collection := dict record.

(** ** The pydantic models *)

Inductive Gender := male | female | others.

Definition gender_str (g : Gender) : string :=
  match g with
  | male => "male"
  | female => "female"
  | others => "others"
  end.

Definition gender_of_str (s : string) : option Gender :=
  if String.eqb s "male" then Some male
  else if String.eqb s "female" then Some female
  else if String.eqb s "others" then Some others
  else None.

(** The outcome of validating one field. *)
Inductive check (A : Type) :=
  | Valid (a : A)
  | Invalid (r : reason).
Arguments Valid {A} a.
Arguments Invalid {A} r.

Definition check_errors {A} (field : string) (c : check A)
  : list (string * reason) :=
  match c with
  | Valid _ => []
  | Invalid r => [(field, r)]
  end.

Definition zero : float := S754_zero false.

(** [str] with optional [min_length] and [max_length]. *)
Definition validate_str (min_length max_length : option nat)
    (v : option json) : check string :=
  match v with
  | None => Invalid Missing
  | Some (JStr s) =>
      let n := String.length s in
      if match min_length with Some lo => (n <? lo)%nat | None => false end
      then Invalid StringTooShort
      else if match max_length with Some hi => (hi <? n)%nat | None => false end
      then Invalid StringTooLong
      else Valid s
  | Some _ => Invalid StringType
  end.

Definition int_gt0 (z : Z) : check Z :=
  if (0 <? z)%Z then Valid z else Invalid GreaterThan.

Definition float_gt0 (f : float) : check float :=
  if float_lt zero f then Valid f else Invalid GreaterThan.

(** [int] with [gt=0]. *)
Definition validate_int `{Platform} (v : option json) : check Z :=
  match v with
  | None => Invalid Missing
  | Some JNull => Invalid IntType
  | Some (JInt z) => int_gt0 z
  | Some other =>
      match lax_int other with
      | Some z => int_gt0 z
      | None => Invalid IntType
      end
  end.

(** [float] with [gt=0]; an integer is converted. *)
Definition validate_float `{Platform} (v : option json) : check float :=
  match v with
  | None => Invalid Missing
  | Some JNull => Invalid FloatType
  | Some (JFloat f) => float_gt0 f
  | Some (JInt z) =>
      match float_of_int z with
      | Some f => float_gt0 f
      | None => Invalid FloatType
      end
  | Some other =>
      match lax_float other with
      | Some f => float_gt0 f
      | None => Invalid FloatType
      end
  end.

(** [Literal["male", "female", "others"]] *)
Definition validate_gender (v : option json) : check Gender :=
  match v with
  | None => Invalid Missing
  | Some (JStr s) =>
      match gender_of_str s with
      | Some g => Valid g
      | None => Invalid LiteralError
      end
  | Some _ => Invalid LiteralError
  end.

Module Patient.

Record t := mk {
  id : string;
  name : string;
  city : string;
  age : Z;
  gender : Gender;
  height : float;
  weight : float
}.

Section Model.
Context `{Platform}.

(** [round(self.weight / (self.height ** 2), 2)] *)
Definition bmi (self : t) : result float :=
  (h2 <- float_pow2 (height self) ;;
   q <- float_div (weight self) h2 ;;
   Ok (round2 q))%result.

(** The property reads [self.bmi] at every comparison; the value is the
    same each time, so it is bound once.  The integer literal 25 compares
    with a float by value, as the float 25.0 does. *)
Definition verdict (self : t) : result string :=
  (b <- bmi self ;;
   if float_lt b (float_of_ratio 185 10) then Ok "Underweight"
   else if float_le (float_of_ratio 185 10) b
           && float_lt b (float_of_ratio 249 10) then Ok "Normal weight"
   else if float_le (float_of_ratio 25 1) b
           && float_lt b (float_of_ratio 299 10) then Ok "Overweight"
   else Ok "Obesity")%result.

(** [model_dump(exclude=...)]: the fields in declaration order, then the
    computed fields, without the excluded keys. *)
Definition model_dump (exclude : list string) (self : t)
  : result record :=
  (b <- bmi self ;;
   v <- verdict self ;;
   Ok (filter (fun kv => negb (str_in (fst kv) exclude))
         [("id", JStr (id self));
          ("name", JStr (name self));
          ("city", JStr (city self));
          ("age", JInt (age self));
          ("gender", JStr (gender_str (gender self)));
          ("height", JFloat (height self));
          ("weight", JFloat (weight self));
          ("bmi", JFloat b);
          ("verdict", JStr v)]))%result.

(** The constructor [Patient], called with the dictionary [d] as keyword
    arguments: every field is validated and all the errors are reported
    together; keys that are not fields are ignored. *)
Definition validate (d : record) : result t :=
  let c_id := validate_str None None (dict_get "id" d) in
  let c_name := validate_str (Some 2%nat) (Some 50%nat) (dict_get "name" d) in
  let c_city := validate_str (Some 2%nat) (Some 100%nat) (dict_get "city" d) in
  let c_age := validate_int (dict_get "age" d) in
  let c_gender := validate_gender (dict_get "gender" d) in
  let c_height := validate_float (dict_get "height" d) in
  let c_weight := validate_float (dict_get "weight" d) in
  match c_id, c_name, c_city, c_age, c_gender, c_height, c_weight with
  | Valid i, Valid n, Valid c, Valid a, Valid g, Valid h, Valid w =>
      Ok (mk i n c a g h w)
  | _, _, _, _, _, _, _ =>
      Err (ValidationError
             (check_errors "id" c_id ++ check_errors "name" c_name
              ++ check_errors "city" c_city ++ check_errors "age" c_age
              ++ check_errors "gender" c_gender
              ++ check_errors "height" c_height
              ++ check_errors "weight" c_weight)%list)
  end.
End Model.

(** The constraints of the schema, as a request body has passed them
    before [create_patient] is called. *)
Definition valid (p : t) : Prop :=
  (2 <= String.length (name p) <= 50)%nat /\
  (2 <= String.length (city p) <= 100)%nat /\
  0 < age p /\
  float_lt zero (height p) = true /\
  float_lt zero (weight p) = true.

End Patient.

Module PatientUpdate.

(** Every field is optional and may be null: [None] is a field that was
    not sent, [Some None] an explicit null, [Some (Some v)] a value. *)
Record t := mk {
  name : option (option string);
  city : option (option string);
  age : option (option Z);
  gender : option (option Gender);
  height : option (option float);
  weight : option (option float)
}.

Definition dump_field {A} (key : string) (to_json : A -> json)
    (v : option (option A)) : record :=
  match v with
  | None => []
  | Some None => [(key, JNull)]
  | Some (Some a) => [(key, to_json a)]
  end.

(** [model_dump(exclude_unset=True)]: the fields that were sent, nulls
    included, in declaration order. *)
Definition model_dump_exclude_unset (self : t) : record :=
  (dump_field "name" JStr (name self)
   ++ dump_field "city" JStr (city self)
   ++ dump_field "age" JInt (age self)
   ++ dump_field "gender" (fun g => JStr (gender_str g)) (gender self)
   ++ dump_field "height" JFloat (height self)
   ++ dump_field "weight" JFloat (weight self))%list.

End PatientUpdate.

(** ** Persistence ([util.py]) and the handler monad *)

Inductive access := Read | Write.

(** [file] is the parsed content of [patients.json] ([None]: the file is
    missing or is not JSON); [log] records every access to it. *)
Record storage := {
  file : option collection;
  log : list access
}.

Definition handler (A : Type) := storage -> result A * storage.

Definition ret {A} (a : A) : handler A := fun st => (Ok a, st).
Definition raise {A} (e : error) : handler A := fun st => (Err e, st).
Definition lift {A} (r : result A) : handler A := fun st => (r, st).

Definition bind {A B} (m : handler A) (k : A -> handler B) : handler B :=
  fun st =>
    match m st with
    | (Ok a, st') => k a st'
    | (Err e, st') => (Err e, st')
    end.

Declare Scope handler_scope.
Delimit Scope handler_scope with handler.
Notation "x <- c ;; k" := (bind c (fun x => k))
  (at level 61, c at next level, right associativity) : handler_scope.
Notation "c ;; k" := (bind c (fun _ => k))
  (at level 61, right associativity) : handler_scope.

Definition load_data : handler collection :=
  fun st =>
    let st' := {| file := file st; log := log st ++ [Read] |} in
    match file st with
    | Some data => (Ok data, st')
    | None => (Err StorageError, st')
    end.

Definition save_data (data : collection) : handler unit :=
  fun st => (Ok tt, {| file := Some data; log := log st ++ [Write] |}).

(** ** Responses *)

(** [JSONResponse(status_code, content={"message": ..., "patient": ...})].
    The body is rendered when the response is built, and rendering refuses
    floats that JSON cannot express. *)
Record JSONResponse := {
  status_code : Z;
  message : string;
  patient : record
}.

Definition json_compliant (d : record) : bool :=
  forallb (fun kv => match snd kv with
                     | JFloat f => is_finite f
                     | _ => true
                     end) d.

Definition make_JSONResponse (status : Z) (msg : string) (p : record)
  : result JSONResponse :=
  if json_compliant p
  then Ok {| status_code := status; message := msg; patient := p |}
  else Err ValueError.

(** ** Ordering JSON values and [sorted] *)

(** The number a JSON value stands for in a comparison; [True] is 1. *)
Definition json_num (v : json) : option xnum :=
  match v with
  | JBool b => Some (XFin (if b then 1 else 0))
  | JInt z => Some (XFin (z # 1))
  | JFloat f => Some (float_val f)
  | JNull | JStr _ => None
  end.

(** [a < b]: numbers compare by value (an integer and a float exactly),
    strings compare character by character, anything else is a TypeError. *)
Definition py_lt (a b : json) : result bool :=
  match a, b with
  | JStr s, JStr t => Ok (String.ltb s t)
  | _, _ =>
      match json_num a, json_num b with
      | Some x, Some y => Ok (x_ltb x y)
      | _, _ => Err TypeError
      end
  end.

Section Sorted.
Context {A : Type}.

(** A stable insertion sort that only asks [<], as Python's sort does:
    [x] stood before every element of [l] in the input and is placed before
    the first element that is not smaller than it. *)
Fixpoint insert_keyed (x : json * A) (l : list (json * A))
  : result (list (json * A)) :=
  match l with
  | [] => Ok [x]
  | y :: l' =>
      (b <- py_lt (fst y) (fst x) ;;
       if b then (r <- insert_keyed x l' ;; Ok (y :: r)) else Ok (x :: l))%result
  end.

Fixpoint sort_keyed (l : list (json * A)) : result (list (json * A)) :=
  match l with
  | [] => Ok []
  | x :: l' => (s <- sort_keyed l' ;; insert_keyed x s)%result
  end.

(** [sorted(l, key=key, reverse=reverse)]: the keys are computed once, a
    reverse sort reverses the list, sorts it stably and reverses the
    result, so that equal elements keep their input order either way. *)
Definition sorted (l : list A) (key : A -> json) (reverse : bool)
  : result (list A) :=
  let keyed := map (fun x => (key x, x)) l in
  let keyed := if reverse then rev keyed else keyed in
  (s <- sort_keyed keyed ;;
   Ok (map snd (if reverse then rev s else s)))%result.
End Sorted.

(** ** The request handlers ([main.py]) *)

Local Open Scope handler_scope.

Definition hello_world : handler string :=
  ret "Patient Management System".

Definition about : handler string :=
  ret "A simple, file-backed Patient Management System".

Definition view_patients : handler collection :=
  load_data.

Definition view_patient (patient_id : string) : handler record :=
  data <- load_data ;;
  let patient_id := upper (strip patient_id) in
  match dict_get patient_id data with
  | Some r => ret r
  | None => raise NotFound
  end.

Definition valid_sort_fields : list string := ["bmi"; "weight"; "height"].

(** [order] is [None] when the query leaves it out; its default is "asc". *)
Definition sort_patients (sort_by : string) (order : option string)
  : handler (list record) :=
  let order := match order with Some o => o | None => "asc" end in
  if negb (str_in sort_by valid_sort_fields) then raise InvalidSortField
  else if negb (str_in order ["asc"; "desc"]) then raise InvalidOrder
  else
    data <- load_data ;;
    lift (sorted (dict_values data)
            (fun x => dict_get_default sort_by (JInt 0) x)
            (String.eqb order "desc")).

Section Handlers.
Context `{Platform}.

Definition create_patient (patient : Patient.t) : handler JSONResponse :=
  data <- load_data ;;
  if dict_mem (Patient.id patient) data then raise Conflict
  else
    stored <- lift (Patient.model_dump ["id"] patient) ;;
    let data := dict_set (Patient.id patient) stored data in
    save_data data ;;
    content <- lift (Patient.model_dump [] patient) ;;
    lift (make_JSONResponse 201 "Patient created successfully" content).

(** The loop writes into the dictionary held by [data]; nothing reads
    [data] again before that entry is replaced or the request fails, so
    the merge is done on the entry alone. *)
Definition update_patient (patient_id : string)
    (patient_update : PatientUpdate.t) : handler JSONResponse :=
  data <- load_data ;;
  match dict_get patient_id data with
  | None => raise NotFound
  | Some existing_patient =>
      let patient_update_dict :=
        PatientUpdate.model_dump_exclude_unset patient_update in
      let existing_patient :=
        dict_update patient_update_dict existing_patient in
      let existing_patient :=
        dict_set "id" (JStr patient_id) existing_patient in
      patient_pydentic_obj <- lift (Patient.validate existing_patient) ;;
      existing_patient <-
        lift (Patient.model_dump ["id"] patient_pydentic_obj) ;;
      let data := dict_set patient_id existing_patient data in
      save_data data ;;
      lift (make_JSONResponse 200 "Patient updated successfully"
              existing_patient)
  end.
End Handlers.

Definition delete_patient (patient_id : string) : handler string :=
  data <- load_data ;;
  let patient_id := upper (strip patient_id) in
  if dict_mem patient_id data then
    save_data (dict_del patient_id data) ;;
    ret "Patient deleted successfully"
  else raise NotFound.

(** ** A reference platform

    A [pow] that rounds the square correctly, and the coercions of
    booleans and of floats without a fractional part. *)

Definition int_of_float (f : float) : option Z :=
  match f with
  | S754_zero _ => Some 0
  | S754_finite s m (Zneg p) =>
      if (Zpos m mod 2 ^ Zpos p =? 0)%Z
      then Some (cond_Zopp s (Zpos m / 2 ^ Zpos p))
      else None
  | S754_finite s m e => Some (cond_Zopp s (Zpos m * 2 ^ e))
  | _ => None
  end.

Definition reference_platform : Platform := {|
  libm_pow2 := fun x => SFmul prec emax x x;
  lax_int := fun v =>
    match v with
    | JBool b => Some (if b then 1 else 0)
    | JFloat f => int_of_float f
    | _ => None
    end;
  lax_float := fun v =>
    match v with
    | JBool b => Some (if b then float_of_ratio 1 1 else zero)
    | _ => None
    end
|}.

(** ** Requests that write, and the data of the worked scenarios *)

(** The two routes that store a patient: [POST /create/] and
    [PUT /edit/{patient_id}]. *)
Inductive write_request :=
  | Create (patient : Patient.t)
  | Update (patient_id : string) (patient_update : PatientUpdate.t).

Definition run_write `{Platform} (w : write_request) : handler JSONResponse :=
  match w with
  | Create patient => create_patient patient
  | Update patient_id patient_update => update_patient patient_id patient_update
  end.

(** The key of the collection a write request stores under. *)
Definition written_id (w : write_request) : string :=
  match w with
  | Create patient => Patient.id patient
  | Update patient_id _ => patient_id
  end.

(** The keys of the schema's input fields, and the keys [model_dump]
    produces when [id] is excluded. *)
Definition input_fields : list string :=
  ["name"; "city"; "age"; "gender"; "height"; "weight"].

Definition dumped_fields : list string :=
  input_fields ++ ["bmi"; "verdict"].

(** [{"name":"John Doe","city":"NY","age":30,"gender":"male","height":1.75,
    "weight":70}] *)
Definition john_stored : record :=
  [("name", JStr "John Doe"); ("city", JStr "NY"); ("age", JInt 30);
   ("gender", JStr "male"); ("height", JFloat (float_of_ratio 175 100));
   ("weight", JInt 70)].

(** A store whose file holds that record under "P001". *)
Definition scenario_store : storage :=
  {| file := Some [("P001", john_stored)]; log := [] |}.

Definition empty_store : storage :=
  {| file := Some []; log := [] |}.

(** The same patient as a request body, with an upper-case and with a
    lower-case id. *)
Definition john (id : string) : Patient.t :=
  Patient.mk id "John Doe" "NY" 30 male
    (float_of_ratio 175 100) (float_of_ratio 70 1).

(** A patient of 72 kg and 1.70 m, whose bmi is 24.91. *)
Definition in_the_gap : Patient.t :=
  Patient.mk "P003" "Gap Case" "Oslo" 44 others
    (float_of_ratio 170 100) (float_of_ratio 72 1).

(** The bodies [{"age": 40}] and [{"age": null}]. *)
Definition age_only (a : option Z) : PatientUpdate.t :=
  PatientUpdate.mk None None (Some a) None None None.

(** The fields of an update that were sent as null. *)
Definition null_fields (u : PatientUpdate.t) : list string :=
  let nulls {A} (key : string) (v : option (option A)) : list string :=
    match v with
    | Some None => [key]
    | _ => []
    end in
  (nulls "name" (PatientUpdate.name u) ++ nulls "city" (PatientUpdate.city u)
   ++ nulls "age" (PatientUpdate.age u) ++ nulls "gender" (PatientUpdate.gender u)
   ++ nulls "height" (PatientUpdate.height u)
   ++ nulls "weight" (PatientUpdate.weight u))%list.

(** The HTTP status an exception is answered with, when it is an
    [HTTPException]. *)
Definition status_of (e : error) : option Z :=
  match e with
  | HTTPException status_code _ => Some status_code
  | _ => None
  end.

(** The dictionary [update_patient] hands to [Patient]: the stored value
    with the sent fields written over it and the path id attached. *)
Definition merged_record (patient_id : string) (u : PatientUpdate.t)
    (existing : record) : record :=
  dict_set "id" (JStr patient_id)
    (dict_update (PatientUpdate.model_dump_exclude_unset u) existing).

(** All the errors [Patient.validate] finds in a dictionary. *)
Definition validation_errors `{Platform} (d : record)
  : list (string * reason) :=
  (check_errors "id" (validate_str None None (dict_get "id" d))
   ++ check_errors "name"
        (validate_str (Some 2%nat) (Some 50%nat) (dict_get "name" d))
   ++ check_errors "city"
        (validate_str (Some 2%nat) (Some 100%nat) (dict_get "city" d))
   ++ check_errors "age" (validate_int (dict_get "age" d))
   ++ check_errors "gender" (validate_gender (dict_get "gender" d))
   ++ check_errors "height" (validate_float (dict_get "height" d))
   ++ check_errors "weight" (validate_float (dict_get "weight" d)))%list.

(** What [model_dump(exclude=['id'])] returns for a patient whose computed
    fields are [b] and [v]. *)
Definition dumped (p : Patient.t) (b : float) (v : string) : record :=
  [("name", JStr (Patient.name p));
   ("city", JStr (Patient.city p));
   ("age", JInt (Patient.age p));
   ("gender", JStr (gender_str (Patient.gender p)));
   ("height", JFloat (Patient.height p));
   ("weight", JFloat (Patient.weight p));
   ("bmi", JFloat b);
   ("verdict", JStr v)].

(** The patient a write request stores, once it has passed validation:
    the body itself for a create, the validated merge for an update. *)
Definition validated `{Platform} (w : write_request) (data : collection)
    (p : Patient.t) : Prop :=
  match w with
  | Create patient => p = patient /\ dict_mem (Patient.id patient) data = false
  | Update patient_id u =>
      exists existing,
        dict_get patient_id data = Some existing /\
        Patient.validate (merged_record patient_id u existing) = Ok p
  end.

(** The response a write request builds after it has stored [d]. *)
Definition write_response `{Platform} (w : write_request) (p : Patient.t)
    (d : record) : result JSONResponse :=
  match w with
  | Create _ =>
      (content <- Patient.model_dump [] p ;;
       make_JSONResponse 201 "Patient created successfully" content)%result
  | Update _ _ => make_JSONResponse 200 "Patient updated successfully" d
  end.

(** The store after John Doe has been created in an empty one, together
    with a second patient. *)
Definition john_dumped : record :=
  dumped (john "P001") (float_of_ratio 2286 100) "Normal weight".

Definition two_patients : collection :=
  [("P001", john_dumped);
   ("P002", dumped (Patient.mk "P002" "Ann Lee" "Pune" 51 female
                      (float_of_ratio 160 100) (float_of_ratio 82 1))
              (float_of_ratio 3203 100) "Obesity")].

(** A number that is not NaN. *)
Definition ordered (a : xnum) : Prop := a <> XNaN.

(** The key [sort_patients] gives to [sorted], and the number a key stands
    for in the order (NaN for a key that is not a number). *)
Definition sort_key (sort_by : string) (x : record) : json :=
  dict_get_default sort_by (JInt 0) x.

Definition num_of (v : json) : xnum :=
  match json_num v with
  | Some x => x
  | None => XNaN
  end.

(** Equal in the order. *)
Definition x_eqb (a b : xnum) : bool := x_leb a b && x_leb b a.

(** Whether an [order] parameter asks for the descending order. *)
Definition descending (order : option string) : bool :=
  match order with
  | Some o => String.eqb o "desc"
  | None => false
  end.

(** A collection of four records for the sort: the weights are 82, none,
    70.5 and 82.0. *)
Definition weights : collection :=
  [("A", [("name", JStr "a"); ("weight", JInt 82)]);
   ("B", [("name", JStr "b")]);
   ("C", [("name", JStr "c"); ("weight", JFloat (float_of_ratio 705 10))]);
   ("D", [("name", JStr "d"); ("weight", JFloat (float_of_ratio 82 1))])].

(** The body [{}] of an update that sends nothing. *)
Definition empty_update : PatientUpdate.t :=
  PatientUpdate.mk None None None None None None.

(** A stored value is consistent when it is the dump, without the id, of a
    patient that satisfies the schema, with the [bmi] and the [verdict]
    that [Patient] computes for it; a collection is consistent when every
    stored value is. *)
Definition consistent_record `{Platform} (r : record) : Prop :=
  exists p b v,
    r = dumped p b v /\ Patient.valid p /\
    Patient.bmi p = Ok b /\ Patient.verdict p = Ok v.

Definition consistent `{Platform} (data : collection) : Prop :=
  Forall (fun kv => consistent_record (snd kv)) data.

(** John Doe with a height of 2^-600 m, positive but with a square that
    underflows to zero, and with a height of 2^600 m, whose square
    overflows. *)
Definition john_with_height (h : float) : Patient.t :=
  Patient.mk "P009" "John Doe" "NY" 30 male h (float_of_ratio 70 1).

Definition tiny_height : float := S754_finite false 4503599627370496 (-652).
Definition huge_height : float := S754_finite false 4503599627370496 548.

(** A patient with another age. *)
Definition with_age (p : Patient.t) (a : Z) : Patient.t :=
  Patient.mk (Patient.id p) (Patient.name p) (Patient.city p) a
    (Patient.gender p) (Patient.height p) (Patient.weight p).

(** A store whose file holds, under "P009", the six input fields of John
    Doe with a height of 2^-600 m. *)
Definition tiny_stored : record :=
  [("name", JStr "John Doe"); ("city", JStr "NY"); ("age", JInt 30);
   ("gender", JStr "male"); ("height", JFloat tiny_height);
   ("weight", JFloat (float_of_ratio 70 1))].

Definition tiny_store : storage :=
  {| file := Some [("P009", tiny_stored)]; log := [] |}.

(** The storage after one more access. *)
Definition accessed (a : access) (st : storage) : storage :=
  {| file := file st; log := log st ++ [a] |}.

(** * Properties *)

(** ** Dictionaries *)

Section DictFacts.
Context {V : Type}.
Implicit Types (d : dict V) (k : string) (v : V).

Lemma dict_get_set_same k v d : dict_get k (dict_set k v d) = Some v.
Proof.
  induction d as [|[k' v'] d IH]; simpl.
  - now rewrite String.eqb_refl.
  - destruct (String.eqb k k') eqn:E; simpl.
    + now rewrite String.eqb_refl.
    + now rewrite E.
Qed.

Lemma dict_get_set_other k k' v d :
  k' <> k -> dict_get k' (dict_set k v d) = dict_get k' d.
Proof.
  intros Hne. induction d as [|[k0 v0] d IH]; simpl.
  - apply String.eqb_neq in Hne. now rewrite Hne.
  - destruct (String.eqb k k0) eqn:E; simpl.
    + apply String.eqb_eq in E. subst k0.
      apply String.eqb_neq in Hne. now rewrite Hne.
    + now rewrite IH.
Qed.

Lemma dict_get_del_same k d : dict_get k (dict_del k d) = None.
Proof.
  induction d as [|[k' v'] d IH]; simpl; auto.
  destruct (String.eqb k k') eqn:E; simpl; auto.
  now rewrite E.
Qed.

Lemma dict_get_del_other k k' d :
  k' <> k -> dict_get k' (dict_del k d) = dict_get k' d.
Proof.
  intros Hne. induction d as [|[k0 v0] d IH]; simpl; auto.
  destruct (String.eqb k k0) eqn:E; simpl.
  - apply String.eqb_eq in E. subst k0.
    apply String.eqb_neq in Hne. now rewrite Hne.
  - now rewrite IH.
Qed.

Lemma dict_mem_get k d :
  dict_mem k d = true <-> exists v, dict_get k d = Some v.
Proof.
  unfold dict_mem. destruct (dict_get k d).
  - split; eauto.
  - split; [discriminate | intros [v Hv]; discriminate].
Qed.

(** A key of [d] stays where it is when it is assigned to. *)
Lemma dict_keys_set_present k v d :
  dict_mem k d = true -> dict_keys (dict_set k v d) = dict_keys d.
Proof.
  unfold dict_mem, dict_keys.
  induction d as [|[k' v'] d IH]; simpl; [discriminate|].
  destruct (String.eqb k k') eqn:E; simpl.
  - apply String.eqb_eq in E. now subst.
  - intros Hm. now rewrite IH.
Qed.

(** When the keys of [items] are distinct, the loop of [dict_update]
    leaves each of them with its value and every other key as it was. *)
Lemma dict_get_update k (items : dict V) d :
  NoDup (dict_keys items) ->
  dict_get k (dict_update items d) =
  match dict_get k items with
  | Some v => Some v
  | None => dict_get k d
  end.
Proof.
  unfold dict_update, dict_keys. revert d.
  induction items as [|[k0 v0] items IH]; intros d Hnd; simpl; auto.
  inversion Hnd as [|? ? Hnotin Hnd']; subst.
  rewrite IH by assumption.
  destruct (String.eqb k k0) eqn:E.
  - apply String.eqb_eq in E. subst k0.
    assert (Hnone : dict_get k items = None).
    { clear -Hnotin. induction items as [|[k1 v1] items IH]; simpl; auto.
      destruct (String.eqb k k1) eqn:E1.
      - apply String.eqb_eq in E1. subst. exfalso. apply Hnotin. now left.
      - apply IH. intros Hin. apply Hnotin. now right. }
    rewrite Hnone. apply dict_get_set_same.
  - destruct (dict_get k items); auto.
    apply dict_get_set_other. intros ->. now rewrite String.eqb_refl in E.
Qed.
End DictFacts.

(** ** Running a handler *)

Lemma load_data_ok st data :
  file st = Some data -> load_data st = (Ok data, accessed Read st).
Proof. unfold load_data, accessed. now intros ->. Qed.

Lemma load_data_missing st :
  file st = None -> load_data st = (Err StorageError, accessed Read st).
Proof. unfold load_data, accessed. now intros ->. Qed.

(** ** The worked scenario: get by id, delete, get again *)

(** C2, as the code has it.  With the store holding John Doe's six input
    fields under "P001", [view_patient "p001"] succeeds and returns the
    stored value as it is: its keys are the six input fields, there is no
    [bmi] and no [verdict] in it.  Deleting "P001" succeeds and empties the
    file, and [view_patient "P001"] then fails with the 404 "Patient not
    found". *)
Theorem view_returns_stored_value_then_delete :
  view_patient "p001" scenario_store
    = (Ok john_stored, accessed Read scenario_store) /\
  dict_keys john_stored = input_fields /\
  delete_patient "P001" scenario_store
    = (Ok "Patient deleted successfully",
       {| file := Some []; log := [Read; Write] |}) /\
  fst (view_patient "P001" {| file := Some []; log := [Read; Write] |})
    = Err NotFound.
Proof. repeat split. Qed.

(** C2 as stated fails: the record that [view_patient "p001"] returns in the
    scenario has no [bmi] and no [verdict] key. *)
Lemma view_scenario_has_no_computed_fields :
  fst (view_patient "p001" scenario_store) = Ok john_stored /\
  dict_get "bmi" john_stored = None /\
  dict_get "verdict" john_stored = None.
Proof. repeat split. Qed.

(** What [Patient] derives from that record on the reference platform:
    22.86 and "Normal weight". *)
Lemma john_bmi_verdict :
  Patient.bmi (H := reference_platform) (john "P001")
    = Ok (float_of_ratio 2286 100) /\
  Patient.verdict (H := reference_platform) (john "P001")
    = Ok "Normal weight".
Proof. split; vm_compute; reflexivity. Qed.

(** ** Normalisation of the id *)

(** [view_patient] and [delete_patient] look up the stripped, upper-cased
    id. *)
Lemma view_patient_normalizes patient_id st data :
  file st = Some data ->
  view_patient patient_id st =
  (match dict_get (upper (strip patient_id)) data with
   | Some r => Ok r
   | None => Err NotFound
   end, accessed Read st).
Proof.
  intros Hf. unfold view_patient, bind. rewrite (load_data_ok _ _ Hf).
  destruct (dict_get _ data); reflexivity.
Qed.

Lemma delete_patient_normalizes patient_id st data :
  file st = Some data ->
  delete_patient patient_id st =
  if dict_mem (upper (strip patient_id)) data
  then (Ok "Patient deleted successfully",
        {| file := Some (dict_del (upper (strip patient_id)) data);
           log := log st ++ [Read; Write] |})
  else (Err NotFound, accessed Read st).
Proof.
  intros Hf. unfold delete_patient, bind. rewrite (load_data_ok _ _ Hf).
  destruct (dict_mem _ data); [|reflexivity].
  unfold save_data, ret, accessed. simpl. now rewrite <- app_assoc.
Qed.

(** [update_patient] looks up the id as it was given. *)
Lemma update_patient_unknown_id `{Platform} patient_id u st data :
  file st = Some data ->
  dict_get patient_id data = None ->
  update_patient patient_id u st = (Err NotFound, accessed Read st).
Proof.
  intros Hf Hg. unfold update_patient, bind.
  rewrite (load_data_ok _ _ Hf), Hg. reflexivity.
Qed.

(** C3 at the failing input.  On the scenario store the id "p001" reaches the
    record through [view_patient] and through [delete_patient], which
    normalise it to "P001"; [update_patient "p001"] indexes the collection
    with "p001" itself and answers "Patient not found", on every platform,
    while the same update under "P001" is accepted on the reference one. *)
Theorem update_patient_skips_normalization :
  fst (view_patient "p001" scenario_store) = Ok john_stored /\
  fst (delete_patient "p001" scenario_store)
    = Ok "Patient deleted successfully" /\
  (forall P : Platform,
     update_patient (H := P) "p001" (age_only (Some 40)) scenario_store
     = (Err NotFound, accessed Read scenario_store)) /\
  (exists resp st',
     update_patient (H := reference_platform) "P001" (age_only (Some 40))
       scenario_store = (Ok resp, st')).
Proof.
  split; [reflexivity|]. split; [reflexivity|]. split.
  - intros P. reflexivity.
  - eexists. eexists. vm_compute. reflexivity.
Qed.

(** C4 at the failing input.  [create_patient] stores the record under the id
    of the body as it is: after creating John Doe with the id "p001" in an
    empty store, the collection has the key "p001", and [view_patient] finds
    the record neither under "p001" nor under "P001", since both are looked
    up as "P001". *)
Theorem create_keeps_id_case_then_view_fails :
  exists resp st',
    create_patient (H := reference_platform) (john "p001") empty_store
      = (Ok resp, st') /\
    option_map dict_keys (file st') = Some ["p001"] /\
    fst (view_patient "p001" st') = Err NotFound /\
    fst (view_patient "P001" st') = Err NotFound.
Proof.
  eexists. eexists. split; [vm_compute; reflexivity|].
  repeat split.
Qed.

(** ** Invalid sort requests *)

(** C9.  A request whose [sort_by] is not one of bmi, weight, height, or
    whose [order] (asc when omitted) is not asc or desc, fails with one of
    the two 400 errors of [sort_patients], and the storage is exactly as it
    was: the file is not even read. *)
Theorem sort_rejects_invalid_arguments sort_by order st :
  str_in sort_by valid_sort_fields = false \/
  str_in (match order with Some o => o | None => "asc" end) ["asc"; "desc"]
    = false ->
  exists e,
    sort_patients sort_by order st = (Err e, st) /\
    InvalidArgument e /\ status_of e = Some 400.
Proof.
  intros Hbad. unfold sort_patients. cbv zeta.
  destruct (str_in sort_by valid_sort_fields) eqn:Hs.
  - destruct Hbad as [Hbad|Hbad]; [discriminate|].
    rewrite Hbad. exists InvalidOrder.
    repeat split. now right.
  - exists InvalidSortField. repeat split. now left.
Qed.

Lemma sort_rejects_invalid_arguments_witness :
  (str_in "name" valid_sort_fields = false \/
   str_in "asc" ["asc"; "desc"] = false) /\
  (exists e,
     sort_patients "name" None scenario_store = (Err e, scenario_store) /\
     InvalidArgument e /\ status_of e = Some 400) /\
  (exists e,
     sort_patients "bmi" (Some "up") scenario_store = (Err e, scenario_store) /\
     InvalidArgument e /\ status_of e = Some 400).
Proof.
  split; [left; reflexivity|]. split.
  - apply (sort_rejects_invalid_arguments "name" None scenario_store).
    left; reflexivity.
  - apply (sort_rejects_invalid_arguments "bmi" (Some "up") scenario_store).
    right; reflexivity.
Defined.

(** ** The models *)

Section ModelFacts.
Context `{Platform}.

Lemma model_dump_exclude_id p :
  Patient.model_dump ["id"] p =
  (b <- Patient.bmi p ;; v <- Patient.verdict p ;; Ok (dumped p b v))%result.
Proof.
  unfold Patient.model_dump.
  destruct (Patient.bmi p); simpl; [|reflexivity].
  destruct (Patient.verdict p); reflexivity.
Qed.

Lemma model_dump_exclude_id_ok p d :
  Patient.model_dump ["id"] p = Ok d ->
  exists b v,
    Patient.bmi p = Ok b /\ Patient.verdict p = Ok v /\ d = dumped p b v.
Proof.
  rewrite model_dump_exclude_id.
  destruct (Patient.bmi p) as [b|]; simpl; [|discriminate].
  destruct (Patient.verdict p) as [v|]; simpl; [|discriminate].
  intros [= <-]. now exists b, v.
Qed.

(** [Patient.validate] succeeds exactly when it finds no error, and
    raises all the errors it finds otherwise. *)
Lemma validate_spec d :
  match Patient.validate d with
  | Ok _ => validation_errors d = []
  | Err e => e = ValidationError (validation_errors d) /\
             validation_errors d <> []
  end.
Proof.
  unfold Patient.validate, validation_errors.
  destruct (validate_str None None (dict_get "id" d));
  destruct (validate_str (Some 2%nat) (Some 50%nat) (dict_get "name" d));
  destruct (validate_str (Some 2%nat) (Some 100%nat) (dict_get "city" d));
  destruct (validate_int (dict_get "age" d));
  destruct (validate_gender (dict_get "gender" d));
  destruct (validate_float (dict_get "height" d));
  destruct (validate_float (dict_get "weight" d));
  simpl; try reflexivity; (split; [reflexivity | discriminate]).
Qed.

Lemma validate_error d e :
  Patient.validate d = Err e -> e = ValidationError (validation_errors d).
Proof.
  intros Hv. pose proof (validate_spec d) as Hs. rewrite Hv in Hs. tauto.
Qed.

Lemma validate_fails d :
  validation_errors d <> [] ->
  Patient.validate d = Err (ValidationError (validation_errors d)).
Proof.
  intros Hne. pose proof (validate_spec d) as Hs.
  destruct (Patient.validate d).
  - contradiction.
  - destruct Hs as [-> _]. reflexivity.
Qed.

(** ** The write handlers, run on a store *)

Lemma create_patient_run p st data :
  file st = Some data ->
  create_patient p st =
  if dict_mem (Patient.id p) data then (Err Conflict, accessed Read st)
  else
    match Patient.model_dump ["id"] p with
    | Err e => (Err e, accessed Read st)
    | Ok d =>
        ((content <- Patient.model_dump [] p ;;
          make_JSONResponse 201 "Patient created successfully" content)%result,
         {| file := Some (dict_set (Patient.id p) d data);
            log := log st ++ [Read; Write] |})
    end.
Proof.
  intros Hf. unfold create_patient, bind. rewrite (load_data_ok _ _ Hf).
  destruct (dict_mem (Patient.id p) data); [reflexivity|].
  unfold lift, save_data, accessed. simpl.
  destruct (Patient.model_dump ["id"] p); [|reflexivity].
  rewrite <- app_assoc. simpl.
  destruct (Patient.model_dump [] p); reflexivity.
Qed.

Lemma update_patient_run patient_id u st data existing :
  file st = Some data ->
  dict_get patient_id data = Some existing ->
  update_patient patient_id u st =
  match Patient.validate (merged_record patient_id u existing) with
  | Err e => (Err e, accessed Read st)
  | Ok p =>
      match Patient.model_dump ["id"] p with
      | Err e => (Err e, accessed Read st)
      | Ok d =>
          (make_JSONResponse 200 "Patient updated successfully" d,
           {| file := Some (dict_set patient_id d data);
              log := log st ++ [Read; Write] |})
      end
  end.
Proof.
  intros Hf Hg. unfold update_patient, bind.
  rewrite (load_data_ok _ _ Hf), Hg.
  fold (merged_record patient_id u existing).
  unfold lift, save_data, accessed. simpl.
  destruct (Patient.validate _); [|reflexivity].
  destruct (Patient.model_dump ["id"] _); [|reflexivity].
  rewrite <- app_assoc. reflexivity.
Qed.

Lemma write_without_file w st :
  file st = None -> run_write w st = (Err StorageError, accessed Read st).
Proof.
  intros Hf. destruct w; simpl;
    unfold create_patient, update_patient, bind;
    now rewrite (load_data_missing _ Hf).
Qed.
End ModelFacts.

(** ** What a write stores *)

Section WriteFacts.
Context `{Platform}.

(** Every run of a write request: it raises after reading and before
    writing, or a patient that passed validation is dumped without its
    id and stored under the request's id, the rest of the collection
    being kept, and the response is built afterwards. *)
Lemma run_write_cases w st r st' :
  run_write w st = (r, st') ->
  (exists e, r = Err e /\ st' = accessed Read st) \/
  (exists data p d,
     file st = Some data /\
     validated w data p /\
     Patient.model_dump ["id"] p = Ok d /\
     st' = {| file := Some (dict_set (written_id w) d data);
              log := log st ++ [Read; Write] |} /\
     r = write_response w p d).
Proof.
  intros Hrun. destruct (file st) as [data|] eqn:Hf.
  2:{ rewrite (write_without_file _ _ Hf) in Hrun.
      injection Hrun as <- <-. left. eauto. }
  destruct w as [p|pid u]; simpl in Hrun.
  - rewrite (create_patient_run _ _ _ Hf) in Hrun.
    destruct (dict_mem (Patient.id p) data) eqn:Hm.
    { injection Hrun as <- <-. left. eauto. }
    destruct (Patient.model_dump ["id"] p) as [d|e] eqn:Hd.
    2:{ injection Hrun as <- <-. left. eauto. }
    injection Hrun as <- <-. right. exists data, p, d.
    repeat split; auto.
  - destruct (dict_get pid data) as [existing|] eqn:Hg.
    2:{ rewrite (update_patient_unknown_id _ _ _ _ Hf Hg) in Hrun.
        injection Hrun as <- <-. left. eauto. }
    rewrite (update_patient_run _ _ _ _ _ Hf Hg) in Hrun.
    destruct (Patient.validate _) as [p|e] eqn:Hv.
    2:{ injection Hrun as <- <-. left. eauto. }
    destruct (Patient.model_dump ["id"] p) as [d|e] eqn:Hd.
    2:{ injection Hrun as <- <-. left. eauto. }
    injection Hrun as <- <-. right. exists data, p, d.
    repeat split; auto. simpl. eauto.
Qed.

(** C1, as the code has it.  After every successful create or update the
    file holds the collection that was read, with, under the request's id,
    the dump without its id of the patient the request validated (the body
    of the create, the validated merge of the update): the six input fields
    of that patient followed by [bmi] and [verdict], with the values
    [Patient] computed for it while the request was served.  There is no
    [id] key in it. *)
Theorem stored_value_is_dump_without_id w st resp st' :
  run_write w st = (Ok resp, st') ->
  exists data p b v,
    file st = Some data /\
    validated w data p /\
    Patient.bmi p = Ok b /\ Patient.verdict p = Ok v /\
    file st' = Some (dict_set (written_id w) (dumped p b v) data) /\
    dict_get (written_id w) (dict_set (written_id w) (dumped p b v) data)
      = Some (dumped p b v) /\
    dict_keys (dumped p b v) = dumped_fields /\
    dict_get "id" (dumped p b v) = None.
Proof.
  intros Hrun.
  destruct (run_write_cases _ _ _ _ Hrun)
    as [(e & He & _) | (data & p & d & Hf & Hval & Hd & -> & _)];
    [discriminate|].
  destruct (model_dump_exclude_id_ok _ _ Hd) as (b & v & Hb & Hv & ->).
  exists data, p, b, v.
  repeat split; auto. apply dict_get_set_same.
Qed.

(** C6.  For every run of a create or an update:
    - a create whose id is a key of the collection raises the 400
      "Patient ID already exists" and the file keeps its content;
    - an update whose merged record fails validation raises that
      validation error and the file keeps its content;
    - whatever the outcome, the file either keeps its content, or the
      request was validated in full and the file holds the whole
      collection with the dumped patient under the request's id;
    - a delete either raises and the file keeps its content, or the file
      holds the collection without the normalised id. *)
Theorem write_is_all_or_nothing w st r st' :
  run_write w st = (r, st') ->
  (forall data,
     file st = Some data -> dict_mem (written_id w) data = true ->
     (exists p, w = Create p) ->
     r = Err Conflict /\ file st' = file st) /\
  (forall data patient_id u existing e,
     file st = Some data -> w = Update patient_id u ->
     dict_get patient_id data = Some existing ->
     Patient.validate (merged_record patient_id u existing) = Err e ->
     r = Err e /\ file st' = file st /\
     e = ValidationError (validation_errors
                            (merged_record patient_id u existing))) /\
  (file st' = file st \/
   exists data p d,
     file st = Some data /\ validated w data p /\
     Patient.model_dump ["id"] p = Ok d /\
     file st' = Some (dict_set (written_id w) d data)) /\
  (forall patient_id,
     (exists e, fst (delete_patient patient_id st) = Err e /\
                file (snd (delete_patient patient_id st)) = file st) \/
     (exists data,
        file st = Some data /\
        file (snd (delete_patient patient_id st))
        = Some (dict_del (upper (strip patient_id)) data))).
Proof.
  intros Hrun. split; [|split; [|split]].
  - intros data Hf Hm [p ->]. simpl in *.
    rewrite (create_patient_run _ _ _ Hf), Hm in Hrun.
    injection Hrun as <- <-. split; reflexivity.
  - intros data pid u existing e Hf -> Hg Hv. simpl in Hrun.
    rewrite (update_patient_run _ _ _ _ _ Hf Hg), Hv in Hrun.
    injection Hrun as <- <-. repeat split.
    now apply validate_error.
  - destruct (run_write_cases _ _ _ _ Hrun)
      as [(e & _ & ->) | (data & p & d & Hf & Hv & Hd & -> & _)].
    + now left.
    + right. exists data, p, d. repeat split; auto.
  - intros pid. destruct (file st) as [data|] eqn:Hf.
    + rewrite (delete_patient_normalizes _ _ _ Hf).
      destruct (dict_mem (upper (strip pid)) data).
      * right. exists data. split; reflexivity.
      * left. exists NotFound. split; [reflexivity | exact Hf].
    + left. exists StorageError. unfold delete_patient, bind.
      rewrite (load_data_missing _ Hf). split; [reflexivity | exact Hf].
Qed.

(** A patient created under an id that is already stripped and in upper
    case is returned by [view_patient], as it was stored. *)
Lemma create_then_view_normalized p st resp st' :
  create_patient p st = (Ok resp, st') ->
  upper (strip (Patient.id p)) = Patient.id p ->
  exists b v,
    Patient.bmi p = Ok b /\ Patient.verdict p = Ok v /\
    view_patient (Patient.id p) st' = (Ok (dumped p b v), accessed Read st').
Proof.
  intros Hrun Hnorm.
  destruct (run_write_cases (Create p) _ _ _ Hrun)
    as [(e & He & _) | (data & p' & d & Hf & [-> _] & Hd & -> & _)];
    [discriminate|].
  destruct (model_dump_exclude_id_ok _ _ Hd) as (b & v & Hb & Hv & ->).
  exists b, v. split; [assumption|]. split; [assumption|].
  erewrite view_patient_normalizes by reflexivity. rewrite Hnorm.
  simpl written_id. now rewrite dict_get_set_same.
Qed.

(** Under any other id the record is stored but [view_patient] does not
    find it, unless the normalised id happens to be another key. *)
Lemma create_then_view_other_id p st data resp st' :
  file st = Some data ->
  create_patient p st = (Ok resp, st') ->
  upper (strip (Patient.id p)) <> Patient.id p ->
  dict_get (upper (strip (Patient.id p))) data = None ->
  view_patient (Patient.id p) st' = (Err NotFound, accessed Read st').
Proof.
  intros Hf Hrun Hnorm Hnone.
  destruct (run_write_cases (Create p) _ _ _ Hrun)
    as [(e & He & _) | (data' & p' & d & Hf' & [-> _] & Hd & -> & _)];
    [discriminate|].
  rewrite Hf in Hf'. injection Hf' as <-.
  erewrite view_patient_normalizes by reflexivity.
  simpl written_id. rewrite dict_get_set_other by assumption.
  now rewrite Hnone.
Qed.
End WriteFacts.

(** C1 as stated fails: creating John Doe in an empty store succeeds and the
    value stored under "P001" has eight keys, among them [bmi] (22.86) and
    [verdict]. *)
Lemma create_stores_computed_fields :
  exists resp d,
    create_patient (H := reference_platform) (john "P001") empty_store
      = (Ok resp, {| file := Some [("P001", d)]; log := [Read; Write] |}) /\
    dict_keys d = (input_fields ++ ["bmi"; "verdict"])%list /\
    dict_get "bmi" d = Some (JFloat (float_of_ratio 2286 100)) /\
    dict_get "verdict" d = Some (JStr "Normal weight").
Proof.
  eexists. eexists. split; [vm_compute; reflexivity|].
  repeat split.
Qed.

(** A create in the empty store stores the dump of its body, and an update
    of the scenario store the dump of the validated merge. *)
Lemma stored_value_is_dump_without_id_witness :
  (exists resp st',
     run_write (H := reference_platform) (Create (john "P001")) empty_store
       = (Ok resp, st') /\
     exists data p b v,
       file empty_store = Some data /\
       validated (H := reference_platform) (Create (john "P001")) data p /\
       Patient.bmi (H := reference_platform) p = Ok b /\
       Patient.verdict (H := reference_platform) p = Ok v /\
       file st' = Some (dict_set "P001" (dumped p b v) data) /\
       dict_get "P001" (dict_set "P001" (dumped p b v) data)
         = Some (dumped p b v) /\
       dict_keys (dumped p b v) = dumped_fields /\
       dict_get "id" (dumped p b v) = None) /\
  (exists resp st',
     run_write (H := reference_platform) (Update "P001" (age_only (Some 40)))
       scenario_store = (Ok resp, st') /\
     exists data p b v,
       file scenario_store = Some data /\
       validated (H := reference_platform)
         (Update "P001" (age_only (Some 40))) data p /\
       Patient.bmi (H := reference_platform) p = Ok b /\
       Patient.verdict (H := reference_platform) p = Ok v /\
       file st' = Some (dict_set "P001" (dumped p b v) data) /\
       dict_get "P001" (dict_set "P001" (dumped p b v) data)
         = Some (dumped p b v) /\
       dict_keys (dumped p b v) = dumped_fields /\
       dict_get "id" (dumped p b v) = None).
Proof.
  split.
  - eexists. eexists. split.
    + vm_compute. reflexivity.
    + eapply (stored_value_is_dump_without_id (H := reference_platform)
                (Create (john "P001")) empty_store).
      vm_compute. reflexivity.
  - eexists. eexists. split.
    + vm_compute. reflexivity.
    + eapply (stored_value_is_dump_without_id (H := reference_platform)
                (Update "P001" (age_only (Some 40))) scenario_store).
      vm_compute. reflexivity.
Defined.

(** On the scenario store, creating "P001" again is a conflict, and the
    update [{"age": null}] of "P001" fails validation; the file is the same
    after both. *)
Lemma write_is_all_or_nothing_witness :
  (exists r st',
     run_write (H := reference_platform) (Create (john "P001")) scenario_store
       = (r, st') /\
     r = Err Conflict /\ file st' = file scenario_store) /\
  (exists r st',
     run_write (H := reference_platform) (Update "P001" (age_only None))
       scenario_store = (r, st') /\
     r = Err (ValidationError [("age", IntType)]) /\
     file st' = file scenario_store).
Proof.
  split.
  - eexists. eexists. split; [reflexivity|].
    apply (proj1 (write_is_all_or_nothing (H := reference_platform)
                    (Create (john "P001")) scenario_store _ _ eq_refl)
             [("P001", john_stored)]).
    + reflexivity.
    + reflexivity.
    + eexists. reflexivity.
  - eexists. eexists. split; [reflexivity|].
    destruct (proj1 (proj2 (write_is_all_or_nothing (H := reference_platform)
                              (Update "P001" (age_only None)) scenario_store
                              _ _ eq_refl))
                [("P001", john_stored)] "P001" (age_only None) john_stored
                (ValidationError [("age", IntType)])
                eq_refl eq_refl eq_refl eq_refl) as (Hr & Hfile & _).
    split; assumption.
Defined.

(** ** Updates that send a null *)

Lemma dump_keys_nodup u :
  NoDup (dict_keys (PatientUpdate.model_dump_exclude_unset u)).
Proof.
  assert (Hsub : exists keep : string -> bool,
             dict_keys (PatientUpdate.model_dump_exclude_unset u)
             = filter keep input_fields).
  { destruct u as [n c a g h w].
    exists (fun k =>
      (String.eqb k "name" && match n with Some _ => true | None => false end)
      || (String.eqb k "city" && match c with Some _ => true | None => false end)
      || (String.eqb k "age" && match a with Some _ => true | None => false end)
      || (String.eqb k "gender" && match g with Some _ => true | None => false end)
      || (String.eqb k "height" && match h with Some _ => true | None => false end)
      || (String.eqb k "weight" && match w with Some _ => true | None => false end)).
    destruct n as [[?|]|], c as [[?|]|], a as [[?|]|], g as [[?|]|],
             h as [[?|]|], w as [[?|]|]; reflexivity. }
  destruct Hsub as [keep ->]. apply NoDup_filter.
  unfold input_fields.
  repeat (constructor; [simpl; intuition discriminate|]). constructor.
Qed.

(** A field sent as null is in the dump, with the value null. *)
Lemma null_field_dumped u k :
  In k (null_fields u) ->
  In k input_fields /\
  dict_get k (PatientUpdate.model_dump_exclude_unset u) = Some JNull.
Proof.
  destruct u as [n c a g h w].
  unfold null_fields, PatientUpdate.model_dump_exclude_unset, input_fields.
  simpl PatientUpdate.name. simpl PatientUpdate.city. simpl PatientUpdate.age.
  simpl PatientUpdate.gender. simpl PatientUpdate.height.
  simpl PatientUpdate.weight.
  intros Hin.
  destruct n as [[?|]|], c as [[?|]|], a as [[?|]|], g as [[?|]|],
           h as [[?|]|], w as [[?|]|]; simpl in Hin;
    repeat match goal with
           | Hk : _ \/ _ |- _ => destruct Hk as [<-|Hk]
           | Hk : False |- _ => contradiction
           end;
    (split; [simpl; tauto | reflexivity]).
Qed.

(** A field that was not sent is not in the dump. *)
Lemma unset_field_not_dumped u k :
  dict_get k (PatientUpdate.model_dump_exclude_unset u) = None ->
  forall pid existing,
    k <> "id" ->
    dict_get k (merged_record pid u existing) = dict_get k existing.
Proof.
  intros Hnone pid existing Hk. unfold merged_record.
  rewrite dict_get_set_other by assumption.
  rewrite dict_get_update by apply dump_keys_nodup.
  now rewrite Hnone.
Qed.

Section NullFacts.
Context `{Platform}.

Lemma null_field_invalid d k :
  In k input_fields -> dict_get k d = Some JNull ->
  exists r, In (k, r) (validation_errors d).
Proof.
  unfold input_fields, validation_errors. intros Hin Hnull.
  simpl in Hin.
  repeat match goal with
         | Hk : _ \/ _ |- _ => destruct Hk as [<-|Hk]
         | Hk : False |- _ => contradiction
         end;
    rewrite Hnull; simpl; eexists;
    repeat first [left; reflexivity | apply in_or_app; right].
Qed.

(** C10.  In an update of a stored patient, a field sent as null is kept
    by the dump of the body (a field that was not sent is not), is written
    over the stored value, and is refused when the merged record is
    validated: the request raises a validation error that names the field,
    and the storage has only been read, so the file keeps its content. *)
Theorem update_with_null_fails_validation patient_id u st data existing k :
  file st = Some data ->
  dict_get patient_id data = Some existing ->
  In k (null_fields u) ->
  dict_get k (PatientUpdate.model_dump_exclude_unset u) = Some JNull /\
  dict_get k (merged_record patient_id u existing) = Some JNull /\
  exists errors r,
    In (k, r) errors /\
    update_patient patient_id u st
      = (Err (ValidationError errors), accessed Read st) /\
    file (accessed Read st) = file st.
Proof.
  intros Hf Hg Hin.
  destruct (null_field_dumped _ _ Hin) as [Hfield Hdump].
  assert (Hk : k <> "id").
  { intros ->. unfold input_fields in Hfield. simpl in Hfield.
    intuition discriminate. }
  assert (Hmerged : dict_get k (merged_record patient_id u existing)
                    = Some JNull).
  { unfold merged_record. rewrite dict_get_set_other by assumption.
    rewrite dict_get_update by apply dump_keys_nodup.
    now rewrite Hdump. }
  split; [assumption|]. split; [assumption|].
  destruct (null_field_invalid _ _ Hfield Hmerged) as [r Hr].
  exists (validation_errors (merged_record patient_id u existing)), r.
  split; [assumption|]. split; [|reflexivity].
  rewrite (update_patient_run _ _ _ _ _ Hf Hg).
  rewrite validate_fails; [reflexivity|].
  intros Hnil. rewrite Hnil in Hr. contradiction.
Qed.
End NullFacts.

(** On the scenario store, [{"age": null}] is refused and nothing is
    written, while the empty body [{}], in which [age] is absent, is
    accepted. *)
Lemma update_with_null_fails_validation_witness :
  (file scenario_store = Some [("P001", john_stored)] /\
   dict_get "P001" [("P001", john_stored)] = Some john_stored /\
   In "age" (null_fields (age_only None))) /\
  (dict_get "age" (PatientUpdate.model_dump_exclude_unset (age_only None))
     = Some JNull /\
   dict_get "age" (merged_record "P001" (age_only None) john_stored)
     = Some JNull /\
   exists errors r,
     In ("age", r) errors /\
     update_patient (H := reference_platform) "P001" (age_only None)
       scenario_store
       = (Err (ValidationError errors), accessed Read scenario_store) /\
     file (accessed Read scenario_store) = file scenario_store) /\
  (exists resp st',
     update_patient (H := reference_platform) "P001"
       (PatientUpdate.mk None None None None None None) scenario_store
       = (Ok resp, st')).
Proof.
  split; [|split].
  - repeat split. simpl. now left.
  - apply (update_with_null_fails_validation (H := reference_platform)
             "P001" (age_only None) scenario_store
             [("P001", john_stored)] john_stored "age").
    + reflexivity.
    + reflexivity.
    + simpl. now left.
  - eexists. eexists. vm_compute. reflexivity.
Defined.

(** ** An update of the age alone *)

Section AgeUpdate.
Context `{Platform}.

(** The computed fields do not look at the id or the age. *)
Lemma bmi_of_height_weight p q :
  Patient.height p = Patient.height q ->
  Patient.weight p = Patient.weight q ->
  Patient.bmi p = Patient.bmi q /\ Patient.verdict p = Patient.verdict q.
Proof.
  intros Hh Hw. unfold Patient.verdict, Patient.bmi.
  rewrite Hh, Hw. split; reflexivity.
Qed.

(** Merging an age into the stored form of a valid patient validates, to
    the same patient with the new age and the path id. *)
Lemma validate_merged_age patient_id p b v a :
  Patient.valid p -> 0 < a ->
  Patient.validate
    (merged_record patient_id (age_only (Some a)) (dumped p b v))
  = Ok (Patient.mk patient_id (Patient.name p) (Patient.city p) a
          (Patient.gender p) (Patient.height p) (Patient.weight p)).
Proof.
  intros (Hn & Hc & _ & Hh & Hw) Ha.
  unfold merged_record, age_only, dumped, Patient.validate. simpl.
  assert (Hg : gender_of_str (gender_str (Patient.gender p))
               = Some (Patient.gender p))
    by (destruct (Patient.gender p); reflexivity).
  rewrite Hg.
  unfold float_gt0, int_gt0. rewrite Hh, Hw.
  assert (Ha' : (0 <? a)%Z = true) by (apply Z.ltb_lt; lia).
  rewrite Ha'.
  assert (Hn1 : (String.length (Patient.name p) <? 2)%nat = false)
    by (apply Nat.ltb_ge; lia).
  assert (Hn2 : (50 <? String.length (Patient.name p))%nat = false)
    by (apply Nat.ltb_ge; lia).
  assert (Hc1 : (String.length (Patient.city p) <? 2)%nat = false)
    by (apply Nat.ltb_ge; lia).
  assert (Hc2 : (100 <? String.length (Patient.city p))%nat = false)
    by (apply Nat.ltb_ge; lia).
  rewrite Hn1, Hn2, Hc1, Hc2. reflexivity.
Qed.

(** The update [{"age": 40}] on any stored value that validates, whatever
its form (six input fields only, integers where floats are expected, ...):
the record stored afterwards is the dump of the validated patient with the
age 40, so that the other input fields hold their validated values and
[bmi] and [verdict] are computed anew. *)
Lemma update_age_of_validating_record patient_id r data st p b :
file st = Some data ->
dict_get patient_id data = Some r ->
Patient.validate (dict_set "id" (JStr patient_id) r) = Ok p ->
Patient.bmi p = Ok b ->
exists v,
  Patient.verdict p = Ok v /\
  update_patient patient_id (age_only (Some 40)) st
  = (make_JSONResponse 200 "Patient updated successfully"
       (dumped (Patient.mk (Patient.id p) (Patient.name p) (Patient.city p)
                  40 (Patient.gender p) (Patient.height p)
                  (Patient.weight p)) b v),
     {| file :=
          Some (dict_set patient_id
                  (dumped (Patient.mk (Patient.id p) (Patient.name p)
                             (Patient.city p) 40 (Patient.gender p)
                             (Patient.height p) (Patient.weight p)) b v)
                  data);
        log := log st ++ [Read; Write] |}).
Proof.
intros Hf Hg Hval Hb.
set (p' := Patient.mk (Patient.id p) (Patient.name p) (Patient.city p) 40
             (Patient.gender p) (Patient.height p) (Patient.weight p)).
assert (Hval' : Patient.validate
                  (merged_record patient_id (age_only (Some 40)) r) = Ok p').
{ unfold Patient.validate, merged_record, age_only in *.
  cbn [PatientUpdate.model_dump_exclude_unset PatientUpdate.dump_field
       PatientUpdate.name PatientUpdate.city PatientUpdate.age
       PatientUpdate.gender PatientUpdate.height PatientUpdate.weight
       app dict_update fold_left fst snd] in *.
  rewrite !dict_get_set_same in *.
  rewrite !(dict_get_set_other "id") in * by discriminate.
  rewrite dict_get_set_same.
  rewrite !(dict_get_set_other "age") by discriminate.
  destruct (validate_str (Some 2%nat) (Some 50%nat) (dict_get "name" r));
    destruct (validate_str (Some 2%nat) (Some 100%nat) (dict_get "city" r));
    destruct (validate_int (dict_get "age" r));
    destruct (validate_gender (dict_get "gender" r));
    destruct (validate_float (dict_get "height" r));
    destruct (validate_float (dict_get "weight" r));
    simpl in Hval; try discriminate.
  injection Hval as <-. reflexivity. }
destruct (bmi_of_height_weight p' p eq_refl eq_refl) as [Hb' Hv'].
rewrite Hb in Hb'.
assert (Hv : exists v, Patient.verdict p = Ok v).
{ unfold Patient.verdict. rewrite Hb. simpl.
  repeat match goal with
         | |- context [if ?c then _ else _] => destruct c
         end; eauto. }
destruct Hv as [v Hv]. rewrite Hv in Hv'.
exists v. split; [assumption|].
rewrite (update_patient_run _ _ _ _ _ Hf Hg), Hval'.
rewrite model_dump_exclude_id, Hb', Hv'. reflexivity.
Qed.
End AgeUpdate.

(** ** The order on numbers *)

Lemma x_ltb_fin p q : x_ltb (XFin p) (XFin q) = true <-> (p < q)%Q.
Proof.
  simpl. rewrite Qlt_alt. destruct (p ?= q)%Q; split; congruence.
Qed.

Lemma x_leb_fin p q : x_leb (XFin p) (XFin q) = true <-> (p <= q)%Q.
Proof.
  simpl. rewrite Qle_alt. destruct (p ?= q)%Q; split; congruence.
Qed.

Ltac x_cases :=
  repeat match goal with
         | a : xnum |- _ => destruct a as [|[|]|?]
         end;
  try reflexivity; try discriminate; try congruence.

Lemma x_leb_trans a b c :
  x_leb a b = true -> x_leb b c = true -> x_leb a c = true.
Proof.
  x_cases. rewrite !x_leb_fin. apply Qle_trans.
Qed.

Lemma x_leb_not_ltb a b : x_leb a b = true -> x_ltb b a = false.
Proof.
  x_cases. intros Hle. apply x_leb_fin in Hle.
  apply not_true_is_false. intros Hlt. apply x_ltb_fin in Hlt.
  exact (Qle_not_lt _ _ Hle Hlt).
Qed.

Lemma x_ltb_not_leb a b : x_ltb a b = true -> x_leb b a = false.
Proof.
  x_cases. intros Hlt. apply x_ltb_fin in Hlt.
  apply not_true_is_false. intros Hle. apply x_leb_fin in Hle.
  exact (Qle_not_lt _ _ Hle Hlt).
Qed.

Lemma x_ltb_leb a b : x_ltb a b = true -> x_leb a b = true.
Proof.
  x_cases. rewrite x_ltb_fin, x_leb_fin. apply Qlt_le_weak.
Qed.

Lemma x_not_ltb_leb a b :
  ordered a -> ordered b -> x_ltb a b = false -> x_leb b a = true.
Proof.
  unfold ordered. x_cases. intros _ _ Hnlt. apply x_leb_fin.
  apply Qnot_lt_le. intros Hlt. apply x_ltb_fin in Hlt. congruence.
Qed.

Lemma x_leb_refl a : ordered a -> x_leb a a = true.
Proof.
  unfold ordered. x_cases. intros _. apply x_leb_fin. apply Qle_refl.
Qed.

Lemma x_leb_ordered a b : x_leb a b = true -> ordered a /\ ordered b.
Proof. unfold ordered. x_cases; split; congruence. Qed.

(** ** The computed fields *)

Section Computed.
Context `{Platform}.

Lemma verdict_of_bmi p b :
  Patient.bmi p = Ok b ->
  Patient.verdict p =
  Ok (if float_lt b (float_of_ratio 185 10) then "Underweight"
      else if float_le (float_of_ratio 185 10) b
              && float_lt b (float_of_ratio 249 10) then "Normal weight"
      else if float_le (float_of_ratio 25 1) b
              && float_lt b (float_of_ratio 299 10) then "Overweight"
      else "Obesity").
Proof.
  intros Hb. unfold Patient.verdict. rewrite Hb. simpl.
  repeat match goal with
         | |- context [if ?c then _ else _] => destruct c
         end; reflexivity.
Qed.

(** A valid patient has a [bmi] unless the square of the height, as [pow]
    returns it, overflows or underflows to zero. *)
Lemma bmi_defined p s m e :
  Patient.valid p ->
  (is_finite (Patient.height p) = true ->
   libm_pow2 (Patient.height p) = S754_finite s m e) ->
  exists b, Patient.bmi p = Ok b.
Proof.
  intros (_ & _ & _ & Hh & _) Hpow. unfold Patient.bmi.
  destruct (Patient.height p) as [sh|sh| |sh mh eh] eqn:Eh.
  - discriminate.
  - simpl. eauto.
  - discriminate.
  - simpl. rewrite (Hpow eq_refl). simpl. eauto.
Qed.

(** C5.  Whenever the square of the height evaluates to [h2] and the
    weight divided by it to [q], [bmi] is [round(q, 2)], and [verdict] is
    the step function of that [bmi]: "Underweight" below 18.5, "Normal
    weight" from 18.5 up to but not including 24.9, "Overweight" from 25
    up to but not including 29.9, and "Obesity" in every other case, so
    also from 24.9 up to but not including 25. *)
Theorem bmi_rounded_and_verdict_steps p h2 q :
  float_pow2 (Patient.height p) = Ok h2 ->
  float_div (Patient.weight p) h2 = Ok q ->
  Patient.bmi p = Ok (round2 q) /\
  (float_lt (round2 q) (float_of_ratio 185 10) = true ->
   Patient.verdict p = Ok "Underweight") /\
  (float_le (float_of_ratio 185 10) (round2 q) = true ->
   float_lt (round2 q) (float_of_ratio 249 10) = true ->
   Patient.verdict p = Ok "Normal weight") /\
  (float_le (float_of_ratio 25 1) (round2 q) = true ->
   float_lt (round2 q) (float_of_ratio 299 10) = true ->
   Patient.verdict p = Ok "Overweight") /\
  (float_lt (round2 q) (float_of_ratio 185 10) = false ->
   float_le (float_of_ratio 185 10) (round2 q)
     && float_lt (round2 q) (float_of_ratio 249 10) = false ->
   float_le (float_of_ratio 25 1) (round2 q)
     && float_lt (round2 q) (float_of_ratio 299 10) = false ->
   Patient.verdict p = Ok "Obesity") /\
  (float_le (float_of_ratio 249 10) (round2 q) = true ->
   float_lt (round2 q) (float_of_ratio 25 1) = true ->
   Patient.verdict p = Ok "Obesity").
Proof.
  intros Hpow Hdiv.
  assert (Hb : Patient.bmi p = Ok (round2 q)).
  { unfold Patient.bmi. rewrite Hpow. simpl. rewrite Hdiv. reflexivity. }
  split; [assumption|].
  rewrite (verdict_of_bmi _ _ Hb).
  set (b := round2 q).
  assert (H1 : x_leb (float_val (float_of_ratio 185 10))
                 (float_val (float_of_ratio 249 10)) = true)
    by (vm_compute; reflexivity).
  assert (H2 : x_leb (float_val (float_of_ratio 249 10))
                 (float_val (float_of_ratio 25 1)) = true)
    by (vm_compute; reflexivity).
  unfold float_lt, float_le.
  repeat split.
  - intros ->. reflexivity.
  - intros Hle Hlt. rewrite (x_leb_not_ltb _ _ Hle), Hle, Hlt. reflexivity.
  - intros Hle Hlt.
    pose proof (x_leb_trans _ _ _ H2 Hle) as Hle2.
    pose proof (x_leb_trans _ _ _ H1 Hle2) as Hle1.
    rewrite (x_leb_not_ltb _ _ Hle1), (x_leb_not_ltb _ _ Hle2), Hle, Hlt.
    rewrite andb_false_r. reflexivity.
  - intros -> -> ->. reflexivity.
  - intros Hle Hlt.
    pose proof (x_leb_trans _ _ _ H1 Hle) as Hle1.
    rewrite (x_leb_not_ltb _ _ Hle1), (x_leb_not_ltb _ _ Hle).
    rewrite (x_ltb_not_leb _ _ Hlt), andb_false_r. reflexivity.
Qed.
End Computed.

(** John Doe: 70 / 1.75 ** 2 rounds to 22.86, a "Normal weight". *)
Lemma bmi_rounded_and_verdict_steps_witness :
  (float_pow2 (H := reference_platform) (Patient.height (john "P001"))
     = Ok (float_of_ratio 30625 10000) /\
   float_div (Patient.weight (john "P001")) (float_of_ratio 30625 10000)
     = Ok (S754_finite false 6433713753386423 (-48))) /\
  Patient.bmi (H := reference_platform) (john "P001")
    = Ok (round2 (S754_finite false 6433713753386423 (-48))) /\
  round2 (S754_finite false 6433713753386423 (-48)) = float_of_ratio 2286 100 /\
  Patient.verdict (H := reference_platform) (john "P001") = Ok "Normal weight".
Proof.
  assert (Hpow : float_pow2 (H := reference_platform)
                   (Patient.height (john "P001"))
                 = Ok (float_of_ratio 30625 10000))
    by (vm_compute; reflexivity).
  assert (Hdiv : float_div (Patient.weight (john "P001"))
                   (float_of_ratio 30625 10000)
                 = Ok (S754_finite false 6433713753386423 (-48)))
    by (vm_compute; reflexivity).
  split; [split; assumption|].
  pose proof (bmi_rounded_and_verdict_steps (H := reference_platform)
                (john "P001") _ _ Hpow Hdiv) as (Hb & _ & Hn & _).
  split; [exact Hb|]. split; [vm_compute; reflexivity|].
  apply Hn; vm_compute; reflexivity.
Defined.

(** The interval from 24.9 to 25 is reached: 72 kg at 1.70 m give 24.91,
    which is an "Obesity", as is 29.9 and above; two more kilograms give
    25.61, an "Overweight". *)
Lemma verdict_in_the_gap :
  Patient.bmi (H := reference_platform) in_the_gap
    = Ok (float_of_ratio 2491 100) /\
  Patient.verdict (H := reference_platform) in_the_gap = Ok "Obesity" /\
  Patient.verdict (H := reference_platform)
    (Patient.mk "P003" "Gap Case" "Oslo" 44 others
       (float_of_ratio 170 100) (float_of_ratio 74 1)) = Ok "Overweight".
Proof. repeat split; vm_compute; reflexivity. Qed.

(** ** Sorting *)

Lemma py_lt_numbers a b :
  ordered (num_of a) -> ordered (num_of b) ->
  py_lt a b = Ok (x_ltb (num_of a) (num_of b)).
Proof.
  unfold ordered, num_of.
  destruct a, b; simpl; intros Ha Hb; try reflexivity;
    solve [exfalso; apply Ha; reflexivity | exfalso; apply Hb; reflexivity].
Qed.

Lemma StronglySorted_snoc {B} (R : B -> B -> Prop) (l : list B) (a : B) :
  StronglySorted R l -> Forall (fun b => R b a) l ->
  StronglySorted R (l ++ [a]).
Proof.
  induction 1 as [|b l Hs IH Hall]; intros Hlast; simpl.
  - repeat constructor.
  - inversion Hlast; subst. constructor; [auto|].
    apply Forall_app. split; [assumption|]. now constructor.
Qed.

Lemma StronglySorted_rev {B} (R : B -> B -> Prop) (l : list B) :
  StronglySorted R l -> StronglySorted (fun a b => R b a) (rev l).
Proof.
  induction 1 as [|a l Hs IH Hall]; simpl.
  - constructor.
  - apply StronglySorted_snoc; [assumption|].
    now apply Forall_rev.
Qed.

Section SortFacts.
Context {A : Type}.
Implicit Types (x y : json * A) (l s : list (json * A)).

(** The order on keyed elements, and the class of the elements whose key
    equals [v]. *)
Let kle x y : Prop := x_leb (num_of (fst x)) (num_of (fst y)) = true.
Let has (v : xnum) x : bool := x_eqb (num_of (fst x)) v.
Let knum x : Prop := ordered (num_of (fst x)).

Lemma insert_keyed_spec x l :
  knum x -> Forall knum l ->
  exists r,
    insert_keyed x l = Ok r /\
    Permutation r (x :: l) /\
    (forall v, filter (has v) r = filter (has v) (x :: l)) /\
    (StronglySorted kle l -> StronglySorted kle r).
Proof.
  intros Hx Hl. induction l as [|y l IH].
  - exists [x]. simpl. repeat split; auto.
    intros _. repeat constructor.
  - inversion Hl as [|? ? Hy Hl']; subst.
    destruct (IH Hl') as (r & Hr & Hperm & Hstable & Hsorted).
    simpl. rewrite (py_lt_numbers _ _ Hy Hx). simpl.
    destruct (x_ltb (num_of (fst y)) (num_of (fst x))) eqn:Hlt.
    + rewrite Hr. simpl. exists (y :: r). split; [reflexivity|].
      split; [|split].
      * rewrite Hperm. apply perm_swap.
      * intros v. simpl. rewrite Hstable. simpl.
        destruct (has v y) eqn:Hvy, (has v x) eqn:Hvx; try reflexivity.
        exfalso. unfold has, x_eqb in Hvy, Hvx.
        apply andb_prop in Hvy, Hvx.
        destruct Hvy as [_ Hvy], Hvx as [Hvx _].
        pose proof (x_leb_trans _ _ _ Hvx Hvy) as Hle.
        rewrite (x_ltb_not_leb _ _ Hlt) in Hle. discriminate.
      * intros Hs. apply StronglySorted_inv in Hs. destruct Hs as [Hs Hall].
        constructor; [auto|].
        apply (Permutation_Forall (Permutation_sym Hperm)).
        constructor; [|assumption].
        now apply x_ltb_leb.
    + exists (x :: y :: l). split; [reflexivity|].
      split; [reflexivity|]. split; [reflexivity|].
      intros Hs. constructor; [assumption|].
      assert (Hxy : kle x y) by now apply x_not_ltb_leb.
      constructor; [assumption|].
      apply StronglySorted_inv in Hs. destruct Hs as [_ Hall].
      eapply Forall_impl; [|exact Hall].
      intros z Hz. exact (x_leb_trans _ _ _ Hxy Hz).
Qed.

Lemma sort_keyed_spec l :
  Forall knum l ->
  exists s,
    sort_keyed l = Ok s /\
    Permutation s l /\
    (forall v, filter (has v) s = filter (has v) l) /\
    StronglySorted kle s.
Proof.
  induction l as [|x l IH]; intros Hl.
  - exists []. simpl. repeat split; auto. constructor.
  - inversion Hl as [|? ? Hx Hl']; subst.
    destruct (IH Hl') as (s & Hs & Hperm & Hstable & Hsorted).
    assert (Hnum : Forall knum s)
      by exact (Permutation_Forall (Permutation_sym Hperm) Hl').
    destruct (insert_keyed_spec x s Hx Hnum)
      as (r & Hr & Hperm' & Hstable' & Hsorted').
    exists r. simpl. rewrite Hs. simpl. split; [assumption|].
    split; [|split].
    + rewrite Hperm'. now constructor.
    + intros v. rewrite Hstable'. simpl. now rewrite Hstable.
    + auto.
Qed.

Variable key : A -> json.

Let tagged (l : list A) : list (json * A) := map (fun a => (key a, a)) l.
Let tag_ok x : Prop := fst x = key (snd x).

Lemma tagged_ok (l : list A) : Forall tag_ok (tagged l).
Proof. induction l; simpl; constructor; auto. reflexivity. Qed.

Lemma map_snd_tagged (l : list A) : map snd (tagged l) = l.
Proof. induction l; simpl; congruence. Qed.

Lemma filter_map_snd (f : json -> bool) s :
  Forall tag_ok s ->
  filter (fun a => f (key a)) (map snd s)
  = map snd (filter (fun x => f (fst x)) s).
Proof.
  induction 1 as [|x s Hx Hs IH]; simpl; [reflexivity|].
  rewrite <- Hx. destruct (f (fst x)); simpl; now rewrite IH.
Qed.

Lemma StronglySorted_map_snd (R : xnum -> xnum -> Prop) s :
  Forall tag_ok s ->
  StronglySorted (fun x y => R (num_of (fst x)) (num_of (fst y))) s ->
  StronglySorted (fun a b => R (num_of (key a)) (num_of (key b)))
    (map snd s).
Proof.
  intros Hok Hs. induction Hs as [|x s Hs IH Hall]; simpl.
  - constructor.
  - inversion Hok as [|? ? Hx Hok']; subst. constructor; [auto|].
    apply Forall_map. rewrite Forall_forall in *.
    intros y Hy. rewrite <- Hx, <- (Hok' y Hy). auto.
Qed.

(** [sorted] on keys that are numbers: every element is returned, in
    ascending (or, reversed, descending) order of the keys, and elements
    with equal keys come in the order they had in the input. *)
Lemma sorted_spec (l : list A) (reverse : bool) :
  Forall (fun a => ordered (num_of (key a))) l ->
  exists out,
    sorted l key reverse = Ok out /\
    Permutation out l /\
    StronglySorted
      (fun a b =>
         if reverse
         then x_leb (num_of (key b)) (num_of (key a)) = true
         else x_leb (num_of (key a)) (num_of (key b)) = true) out /\
    (forall v,
       filter (fun a => x_eqb (num_of (key a)) v) out
       = filter (fun a => x_eqb (num_of (key a)) v) l).
Proof.
  intros Hnum. unfold sorted. fold (tagged l).
  assert (Hk : Forall knum (tagged l)).
  { unfold tagged. apply Forall_map. exact Hnum. }
  destruct reverse.
  - assert (Hk' : Forall knum (rev (tagged l))) by now apply Forall_rev.
    destruct (sort_keyed_spec _ Hk') as (s & Hs & Hperm & Hstable & Hsorted).
    rewrite Hs. simpl. exists (map snd (rev s)).
    assert (Hperm' : Permutation (rev s) (tagged l)).
    { rewrite <- Permutation_rev, Hperm. apply Permutation_sym.
      apply Permutation_rev. }
    assert (Hok : Forall tag_ok (rev s))
      by exact (Permutation_Forall (Permutation_sym Hperm') (tagged_ok l)).
    split; [reflexivity|]. split; [|split].
    + apply Permutation_trans with (map snd (tagged l));
        [now apply Permutation_map | now rewrite map_snd_tagged].
    + apply (StronglySorted_map_snd (fun a b => x_leb b a = true));
        [assumption|].
      exact (StronglySorted_rev _ _ Hsorted).
    + intros v.
      rewrite (filter_map_snd (fun k => x_eqb (num_of k) v)) by assumption.
      rewrite filter_rev. fold (has v). rewrite Hstable.
      rewrite filter_rev, rev_involutive.
      rewrite <- (filter_map_snd (fun k => x_eqb (num_of k) v))
        by apply tagged_ok.
      now rewrite map_snd_tagged.
  - destruct (sort_keyed_spec _ Hk) as (s & Hs & Hperm & Hstable & Hsorted).
    rewrite Hs. simpl. exists (map snd s).
    assert (Hok : Forall tag_ok s)
      by exact (Permutation_Forall (Permutation_sym Hperm) (tagged_ok l)).
    split; [reflexivity|]. split; [|split].
    + apply Permutation_trans with (map snd (tagged l));
        [now apply Permutation_map | now rewrite map_snd_tagged].
    + now apply (StronglySorted_map_snd (fun a b => x_leb a b = true)).
    + intros v.
      rewrite (filter_map_snd (fun k => x_eqb (num_of k) v)) by assumption.
      fold (has v). rewrite Hstable.
      rewrite <- (filter_map_snd (fun k => x_eqb (num_of k) v))
        by apply tagged_ok.
      now rewrite map_snd_tagged.
Qed.
End SortFacts.

(** C8.  Let the file hold a collection in which the value sorted by is,
    for every record, a number other than NaN, the value of a record
    without the field being the default 0.  For [sort_by] among bmi, weight
    and height and [order] omitted, asc or desc, [sort_patients] reads the
    file and returns a list that holds every record of the collection
    (a permutation of its values), in ascending order of those numbers when
    the order is omitted or asc and in descending order when it is desc,
    and in which the records with equal numbers stand in the order they
    have in the collection. *)
Theorem sort_patients_is_stable_sort sort_by order st data :
  file st = Some data ->
  str_in sort_by valid_sort_fields = true ->
  str_in (match order with Some o => o | None => "asc" end) ["asc"; "desc"]
    = true ->
  Forall (fun r => ordered (num_of (sort_key sort_by r))) (dict_values data) ->
  exists out,
    sort_patients sort_by order st = (Ok out, accessed Read st) /\
    Permutation out (dict_values data) /\
    StronglySorted
      (fun a b =>
         if descending order
         then x_leb (num_of (sort_key sort_by b))
                (num_of (sort_key sort_by a)) = true
         else x_leb (num_of (sort_key sort_by a))
                (num_of (sort_key sort_by b)) = true) out /\
    (forall v,
       filter (fun r => x_eqb (num_of (sort_key sort_by r)) v) out
       = filter (fun r => x_eqb (num_of (sort_key sort_by r)) v)
           (dict_values data)) /\
    (forall r, dict_get sort_by r = None ->
               num_of (sort_key sort_by r) = XFin 0).
Proof.
  intros Hf Hfield Horder Hnum.
  destruct (sorted_spec (sort_key sort_by) (dict_values data)
              (descending order) Hnum)
    as (out & Hout & Hperm & Hsorted & Hstable).
  exists out. split; [|split; [|split; [|split]]]; try assumption.
  - unfold sort_patients. cbv zeta. rewrite Hfield, Horder. cbn [negb].
    unfold bind. rewrite (load_data_ok _ _ Hf). unfold lift.
    replace (String.eqb match order with Some o => o | None => "asc" end "desc")
      with (descending order) by (destruct order; reflexivity).
    change (fun x : record => dict_get_default sort_by (JInt 0) x)
      with (sort_key sort_by).
    now rewrite Hout.
  - intros r Hr. unfold sort_key, dict_get_default. now rewrite Hr.
Qed.

(** By weight, descending: 82, 82.0, 70.5, and the record without a weight
    last; the two records that weigh 82 keep their order.  Ascending, the
    record without a weight comes first. *)
Lemma sort_patients_is_stable_sort_witness :
  (str_in "weight" valid_sort_fields = true /\
   Forall (fun r => ordered (num_of (sort_key "weight" r)))
     (dict_values weights)) /\
  (exists out,
     sort_patients "weight" (Some "desc") {| file := Some weights; log := [] |}
       = (Ok out, {| file := Some weights; log := [Read] |}) /\
     Permutation out (dict_values weights) /\
     map (dict_get "name") out
       = [Some (JStr "a"); Some (JStr "d"); Some (JStr "c"); Some (JStr "b")]) /\
  option_map (map (dict_get "name"))
    (match fst (sort_patients "weight" None
                  {| file := Some weights; log := [] |}) with
     | Ok out => Some out
     | Err _ => None
     end)
  = Some [Some (JStr "b"); Some (JStr "c"); Some (JStr "a"); Some (JStr "d")].
Proof.
  assert (Hnum : Forall (fun r => ordered (num_of (sort_key "weight" r)))
                   (dict_values weights)).
  { repeat constructor; unfold ordered; vm_compute; discriminate. }
  split; [split; [reflexivity | exact Hnum]|].
  split; [|vm_compute; reflexivity].
  destruct (sort_patients_is_stable_sort "weight" (Some "desc")
              {| file := Some weights; log := [] |} weights
              eq_refl eq_refl eq_refl Hnum)
    as (out & Hrun & Hperm & _).
  exists out. split; [exact Hrun|]. split; [exact Hperm|].
  assert (Hout : fst (sort_patients "weight" (Some "desc")
                        {| file := Some weights; log := [] |}) = Ok out)
    by now rewrite Hrun.
  vm_compute in Hout. injection Hout as <-. reflexivity.
Defined.

(** * Further properties of the handlers *)

(** ** Strings: normalising twice *)

Lemma isspace_upper_char c : isspace (upper_char c) = isspace c.
Proof. destruct c as [[] [] [] [] [] [] [] []]; reflexivity. Qed.

Lemma upper_char_idem c : upper_char (upper_char c) = upper_char c.
Proof. destruct c as [[] [] [] [] [] [] [] []]; reflexivity. Qed.

Lemma upper_idem s : upper (upper s) = upper s.
Proof.
  induction s as [|c s IH]; simpl; [reflexivity|].
  now rewrite upper_char_idem, IH.
Qed.

Lemma lstrip_upper s : lstrip (upper s) = upper (lstrip s).
Proof.
  induction s as [|c s IH]; simpl; [reflexivity|].
  rewrite isspace_upper_char. destruct (isspace c); [assumption | reflexivity].
Qed.

Lemma rstrip_upper s : rstrip (upper s) = upper (rstrip s).
Proof.
  induction s as [|c s IH]; simpl; [reflexivity|].
  rewrite IH, isspace_upper_char.
  destruct (rstrip s); simpl; [destruct (isspace c)|]; reflexivity.
Qed.

Lemma rstrip_cons c s :
  rstrip (String c s) =
  match rstrip s with
  | EmptyString => if isspace c then EmptyString else String c EmptyString
  | t => String c t
  end.
Proof. reflexivity. Qed.

Lemma rstrip_idem s : rstrip (rstrip s) = rstrip s.
Proof.
  induction s as [|c s IH]; [reflexivity|].
  rewrite rstrip_cons. destruct (rstrip s) as [|c' t] eqn:E.
  - destruct (isspace c) eqn:Ec; [reflexivity|].
    rewrite rstrip_cons. simpl. now rewrite Ec.
  - rewrite rstrip_cons, IH. reflexivity.
Qed.

(** A string that does not start with a space still does not after the
    trailing spaces are removed. *)
Lemma lstrip_rstrip_lstrip s : lstrip (rstrip (lstrip s)) = rstrip (lstrip s).
Proof.
  induction s as [|c s IH]; [reflexivity|].
  cbn [lstrip]. destruct (isspace c) eqn:Ec; [assumption|].
  rewrite rstrip_cons. destruct (rstrip s); rewrite ?Ec; cbn [lstrip];
    now rewrite Ec.
Qed.

Lemma strip_idem s : strip (strip s) = strip s.
Proof.
  unfold strip. now rewrite lstrip_rstrip_lstrip, rstrip_idem.
Qed.

Lemma normalize_idem s : upper (strip (upper (strip s))) = upper (strip s).
Proof.
  unfold strip at 1. rewrite lstrip_upper, rstrip_upper.
  fold (strip (strip s)). now rewrite strip_idem, upper_idem.
Qed.

(** ** Dictionaries: more on assignment and deletion *)

Section MoreDictFacts.
Context {V : Type}.
Implicit Types (d : dict V) (k : string) (v : V).

Lemma dict_set_absent k v d :
  dict_get k d = None -> dict_set k v d = (d ++ [(k, v)])%list.
Proof.
  induction d as [|[k' v'] d IH]; simpl; [reflexivity|].
  destruct (String.eqb k k'); [discriminate|].
  intros Hnone. now rewrite IH.
Qed.

Lemma dict_set_same_value k v d :
  dict_get k d = Some v -> dict_set k v d = d.
Proof.
  induction d as [|[k' v'] d IH]; simpl; [discriminate|].
  destruct (String.eqb k k') eqn:E.
  - apply String.eqb_eq in E. intros [= ->]. now subst.
  - intros Hg. now rewrite IH.
Qed.

Lemma dict_set_twice k v v' d :
  dict_set k v (dict_set k v' d) = dict_set k v d.
Proof.
  induction d as [|[k0 v0] d IH]; simpl.
  - now rewrite String.eqb_refl.
  - destruct (String.eqb k k0) eqn:E; simpl.
    + now rewrite String.eqb_refl.
    + now rewrite E, IH.
Qed.

Lemma dict_del_absent k d : dict_get k d = None -> dict_del k d = d.
Proof.
  induction d as [|[k' v'] d IH]; simpl; [reflexivity|].
  destruct (String.eqb k k'); [discriminate|].
  intros Hnone. now rewrite IH.
Qed.

Lemma dict_del_set_absent k v d :
  dict_get k d = None -> dict_del k (dict_set k v d) = d.
Proof.
  intros Hnone. rewrite (dict_set_absent _ _ _ Hnone).
  induction d as [|[k' v'] d IH]; simpl.
  - now rewrite String.eqb_refl.
  - simpl in Hnone. destruct (String.eqb k k'); [discriminate|].
    now rewrite IH.
Qed.

Lemma dict_keys_del k d :
  dict_keys (dict_del k d)
  = filter (fun k' => negb (String.eqb k k')) (dict_keys d).
Proof.
  unfold dict_keys. induction d as [|[k' v'] d IH]; simpl; [reflexivity|].
  destruct (String.eqb k k'); simpl; now rewrite IH.
Qed.

Lemma Forall_dict_set (P : string * V -> Prop) k v d :
  (forall k1 k2 w, P (k1, w) -> P (k2, w)) ->
  Forall P d -> P (k, v) -> Forall P (dict_set k v d).
Proof.
  intros Hkey Hd Hv. induction Hd as [|[k' v'] d Hx Hd IH]; simpl.
  - now constructor.
  - destruct (String.eqb k k'); constructor; auto.
Qed.

Lemma Forall_dict_del (P : string * V -> Prop) k d :
  Forall P d -> Forall P (dict_del k d).
Proof.
  induction 1 as [|[k' v'] d Hx Hd IH]; simpl; [constructor|].
  destruct (String.eqb k k'); [assumption | now constructor].
Qed.

Lemma Forall_dict_get (P : string * V -> Prop) k v d :
  Forall P d -> dict_get k d = Some v -> exists k', P (k', v).
Proof.
  induction 1 as [|[k' v'] d Hx Hd IH]; simpl; [discriminate|].
  destruct (String.eqb k k'); [intros [= <-]; eauto | assumption].
Qed.
End MoreDictFacts.

(** ** Validation: what a valid field is, and validating it again *)

Lemma validate_str_valid lo hi v s :
  validate_str lo hi v = Valid s ->
  v = Some (JStr s) /\
  match lo with Some n => (n <= String.length s)%nat | None => True end /\
  match hi with Some n => (String.length s <= n)%nat | None => True end.
Proof.
  unfold validate_str. destruct v as [[| | | |s']|]; try discriminate.
  destruct lo as [n|], hi as [m|];
    repeat match goal with
           | |- context [(?a <? ?b)%nat] =>
               destruct (Nat.ltb_spec a b)
           end; try discriminate; intros [= ->]; repeat split; lia.
Qed.

Lemma validate_str_again lo hi v s :
  validate_str lo hi v = Valid s ->
  validate_str lo hi (Some (JStr s)) = Valid s.
Proof.
  intros Hv. destruct (validate_str_valid _ _ _ _ Hv) as [-> _]. exact Hv.
Qed.

Lemma validate_gender_valid v g :
  validate_gender v = Valid g -> v = Some (JStr (gender_str g)).
Proof.
  unfold validate_gender. destruct v as [[| | | |s]|]; try discriminate.
  unfold gender_of_str.
  destruct (String.eqb s "male") eqn:E1;
    [apply String.eqb_eq in E1; subst; now intros [= <-]|].
  destruct (String.eqb s "female") eqn:E2;
    [apply String.eqb_eq in E2; subst; now intros [= <-]|].
  destruct (String.eqb s "others") eqn:E3;
    [apply String.eqb_eq in E3; subst; now intros [= <-]|].
  discriminate.
Qed.

Section ValidationFacts.
Context `{Platform}.

Lemma int_gt0_valid z z' : int_gt0 z = Valid z' -> z' = z /\ 0 < z.
Proof.
  unfold int_gt0. destruct (Z.ltb_spec 0 z); [|discriminate].
  intros [= <-]. now split.
Qed.

Lemma float_gt0_valid f f' :
  float_gt0 f = Valid f' -> f' = f /\ float_lt zero f = true.
Proof.
  unfold float_gt0. destruct (float_lt zero f) eqn:E; [|discriminate].
  intros [= <-]. now split.
Qed.

Lemma validate_int_valid v z :
  validate_int v = Valid z ->
  0 < z /\ validate_int (Some (JInt z)) = Valid z.
Proof.
  intros Hv.
  assert (Hz : exists z0, int_gt0 z0 = Valid z).
  { unfold validate_int in Hv.
    destruct v as [[| | | |]|]; try discriminate; eauto;
      match type of Hv with
      | context [lax_int ?j] => destruct (lax_int j); [eauto | discriminate]
      end. }
  destruct Hz as [z0 Hz0]. destruct (int_gt0_valid _ _ Hz0) as [-> Hpos].
  split; [assumption | exact Hz0].
Qed.

Lemma validate_float_valid v f :
  validate_float v = Valid f ->
  float_lt zero f = true /\ validate_float (Some (JFloat f)) = Valid f.
Proof.
  intros Hv.
  assert (Hf : exists f0, float_gt0 f0 = Valid f).
  { unfold validate_float in Hv.
    destruct v as [[| |z| |]|]; try discriminate; eauto.
    - destruct (lax_float _); [eauto | discriminate].
    - destruct (float_of_int z); [eauto | discriminate].
    - destruct (lax_float _); [eauto | discriminate]. }
  destruct Hf as [f0 Hf0]. destruct (float_gt0_valid _ _ Hf0) as [-> Hpos].
  split; [assumption | exact Hf0].
Qed.

(** [Patient.validate] succeeds exactly when each of the seven checks
    does, and the patient is made of their values. *)
Lemma validate_ok_iff d p :
  Patient.validate d = Ok p <->
  validate_str None None (dict_get "id" d) = Valid (Patient.id p) /\
  validate_str (Some 2%nat) (Some 50%nat) (dict_get "name" d)
    = Valid (Patient.name p) /\
  validate_str (Some 2%nat) (Some 100%nat) (dict_get "city" d)
    = Valid (Patient.city p) /\
  validate_int (dict_get "age" d) = Valid (Patient.age p) /\
  validate_gender (dict_get "gender" d) = Valid (Patient.gender p) /\
  validate_float (dict_get "height" d) = Valid (Patient.height p) /\
  validate_float (dict_get "weight" d) = Valid (Patient.weight p).
Proof.
  unfold Patient.validate.
  destruct (validate_str None None (dict_get "id" d));
    destruct (validate_str (Some 2%nat) (Some 50%nat) (dict_get "name" d));
    destruct (validate_str (Some 2%nat) (Some 100%nat) (dict_get "city" d));
    destruct (validate_int (dict_get "age" d));
    destruct (validate_gender (dict_get "gender" d));
    destruct (validate_float (dict_get "height" d));
    destruct (validate_float (dict_get "weight" d));
    (split;
     [ intros Hv; try discriminate; injection Hv as <-; repeat split
     | intros (H1 & H2 & H3 & H4 & H5 & H6 & H7); try discriminate;
       injection H1 as H1; injection H2 as H2; injection H3 as H3;
       injection H4 as H4; injection H5 as H5; injection H6 as H6;
       injection H7 as H7; destruct p; simpl in *; congruence ]).
Qed.

(** A dictionary that validates gives a patient that satisfies the
    schema. *)
Lemma validate_sound d p : Patient.validate d = Ok p -> Patient.valid p.
Proof.
  intros Hv. apply validate_ok_iff in Hv.
  destruct Hv as (_ & Hn & Hc & Ha & _ & Hh & Hw).
  apply validate_str_valid in Hn, Hc.
  apply validate_int_valid in Ha. apply validate_float_valid in Hh, Hw.
  unfold Patient.valid. intuition.
Qed.
End ValidationFacts.

(** ** Merging, dumping and validating again *)

Lemma dict_get_merged_id patient_id u r :
  dict_get "id" (merged_record patient_id u r) = Some (JStr patient_id).
Proof. unfold merged_record. apply dict_get_set_same. Qed.

Lemma dict_get_merged_field patient_id u r k :
  k <> "id" ->
  dict_get k (merged_record patient_id u r) =
  match dict_get k (PatientUpdate.model_dump_exclude_unset u) with
  | Some v => Some v
  | None => dict_get k r
  end.
Proof.
  intros Hk. unfold merged_record.
  rewrite dict_get_set_other by assumption.
  apply dict_get_update, dump_keys_nodup.
Qed.

Section MergeFacts.
Context `{Platform}.

(** Merging the same body into the dump of the patient that the first
    merge validated to validates to that patient again. *)
Lemma validate_merged_again patient_id u r p b v :
  Patient.validate (merged_record patient_id u r) = Ok p ->
  Patient.validate (merged_record patient_id u (dumped p b v)) = Ok p.
Proof.
  intros Hv. apply validate_ok_iff in Hv. apply validate_ok_iff.
  destruct Hv as (Hi & Hn & Hc & Ha & Hg & Hh & Hw).
  rewrite dict_get_merged_id in *.
  rewrite dict_get_merged_field in Hn, Hc, Ha, Hg, Hh, Hw by discriminate.
  rewrite !dict_get_merged_field by discriminate.
  split; [assumption|].
  repeat split.
  - destruct (dict_get "name" _); [assumption|].
    exact (validate_str_again _ _ _ _ Hn).
  - destruct (dict_get "city" _); [assumption|].
    exact (validate_str_again _ _ _ _ Hc).
  - destruct (dict_get "age" _); [assumption|].
    exact (proj2 (validate_int_valid _ _ Ha)).
  - destruct (dict_get "gender" _); [assumption|].
    simpl. destruct (Patient.gender p); reflexivity.
  - destruct (dict_get "height" _); [assumption|].
    exact (proj2 (validate_float_valid _ _ Hh)).
  - destruct (dict_get "weight" _); [assumption|].
    exact (proj2 (validate_float_valid _ _ Hw)).
Qed.

(** The dump of a patient that satisfies the schema validates, under any
    id, to that patient with that id. *)
Lemma validate_dumped i p b v :
  Patient.valid p ->
  Patient.validate (dict_set "id" (JStr i) (dumped p b v))
  = Ok (Patient.mk i (Patient.name p) (Patient.city p) (Patient.age p)
          (Patient.gender p) (Patient.height p) (Patient.weight p)).
Proof.
  intros (Hn & Hc & Ha & Hh & Hw). apply validate_ok_iff. simpl.
  unfold float_gt0, int_gt0. rewrite Hh, Hw.
  assert (Ha' : (0 <? Patient.age p)%Z = true) by (apply Z.ltb_lt; lia).
  rewrite Ha'.
  assert (Hg : gender_of_str (gender_str (Patient.gender p))
               = Some (Patient.gender p))
    by (destruct (Patient.gender p); reflexivity).
  rewrite Hg.
  assert (Hn1 : (String.length (Patient.name p) <? 2)%nat = false)
    by (apply Nat.ltb_ge; lia).
  assert (Hn2 : (50 <? String.length (Patient.name p))%nat = false)
    by (apply Nat.ltb_ge; lia).
  assert (Hc1 : (String.length (Patient.city p) <? 2)%nat = false)
    by (apply Nat.ltb_ge; lia).
  assert (Hc2 : (100 <? String.length (Patient.city p))%nat = false)
    by (apply Nat.ltb_ge; lia).
  rewrite Hn1, Hn2, Hc1, Hc2. repeat split.
Qed.

(** The only exceptions of [bmi]. *)
Lemma bmi_error_kinds p e :
  Patient.bmi p = Err e -> e = ZeroDivisionError \/ e = OverflowError.
Proof.
  unfold Patient.bmi, float_pow2, float_div.
  destruct (Patient.height p); simpl;
    try (intros [= <-]; now left);
    try discriminate.
  destruct (libm_pow2 _); simpl; intros [= <-]; auto.
Qed.

(** The record a validated patient is stored as is consistent. *)
Lemma validated_dump_consistent d p r :
  Patient.validate d = Ok p ->
  Patient.model_dump ["id"] p = Ok r ->
  consistent_record r.
Proof.
  intros Hv Hd.
  destruct (model_dump_exclude_id_ok _ _ Hd) as (b & v & Hb & Hvd & ->).
  exists p, b, v. repeat split; try assumption.
  all: try (destruct (validate_sound _ _ Hv) as (? & ? & ? & ? & ?); lia).
  all: destruct (validate_sound _ _ Hv) as (? & ? & ? & ? & ?); assumption.
Qed.
End MergeFacts.

(** [sort_patients] on accepted arguments: one read, then [sorted]. *)
Lemma sort_patients_run sort_by order st data :
  file st = Some data ->
  str_in sort_by valid_sort_fields = true ->
  str_in (match order with Some o => o | None => "asc" end) ["asc"; "desc"]
    = true ->
  sort_patients sort_by order st
  = (sorted (dict_values data) (sort_key sort_by) (descending order),
     accessed Read st).
Proof.
  intros Hf Hfield Horder.
  unfold sort_patients. cbv zeta. rewrite Hfield, Horder. cbn [negb].
  unfold bind. rewrite (load_data_ok _ _ Hf). unfold lift.
  replace (String.eqb match order with Some o => o | None => "asc" end "desc")
    with (descending order) by (destruct order; reflexivity).
  reflexivity.
Qed.

Lemma filter_all {B} (f : B -> bool) (l : list B) :
  Forall (fun x => f x = true) l -> filter f l = l.
Proof.
  induction 1 as [|x l Hx Hl IH]; simpl; [reflexivity|].
  now rewrite Hx, IH.
Qed.

(** ** Deleting *)

(** X1.  When the normalised id is a key of the collection,
    [delete_patient] succeeds and stores the collection without it.  From
    then on every id with the same normalised form is unknown to
    [view_patient] and to [delete_patient] (a second delete is a 404), every
    other id is answered by [view_patient] as before, and the remaining
    keys keep their order. *)
Theorem delete_removes_the_record patient_id st data :
  file st = Some data ->
  dict_mem (upper (strip patient_id)) data = true ->
  delete_patient patient_id st
    = (Ok "Patient deleted successfully",
       {| file := Some (dict_del (upper (strip patient_id)) data);
          log := log st ++ [Read; Write] |}) /\
  (forall q,
     upper (strip q) = upper (strip patient_id) ->
     fst (view_patient q (snd (delete_patient patient_id st))) = Err NotFound /\
     fst (delete_patient q (snd (delete_patient patient_id st)))
       = Err NotFound) /\
  (forall q,
     upper (strip q) <> upper (strip patient_id) ->
     fst (view_patient q (snd (delete_patient patient_id st)))
     = fst (view_patient q st)) /\
  dict_keys (dict_del (upper (strip patient_id)) data)
  = filter (fun k => negb (String.eqb (upper (strip patient_id)) k))
      (dict_keys data).
Proof.
  intros Hf Hm.
  rewrite (delete_patient_normalizes _ _ _ Hf), Hm. cbn [snd].
  split; [reflexivity|]. split; [|split].
  - intros q Hq.
    erewrite view_patient_normalizes by reflexivity.
    erewrite delete_patient_normalizes by reflexivity.
    unfold dict_mem. rewrite Hq, dict_get_del_same. split; reflexivity.
  - intros q Hq.
    erewrite view_patient_normalizes by reflexivity.
    rewrite (view_patient_normalizes _ _ _ Hf).
    now rewrite dict_get_del_other.
  - apply dict_keys_del.
Qed.

Lemma delete_removes_the_record_witness :
  dict_mem (upper (strip " p001 ")) [("P001", john_stored)] = true /\
  delete_patient " p001 " scenario_store
    = (Ok "Patient deleted successfully",
       {| file := Some []; log := [Read; Write] |}).
Proof.
  split; [reflexivity|].
  exact (proj1 (delete_removes_the_record " p001 " scenario_store
                  [("P001", john_stored)] eq_refl eq_refl)).
Defined.

(** ** Ids in normalised form *)

(** X2.  Normalising an id twice is normalising it once, so
    [view_patient] and [delete_patient] do for the normalised form of an id
    exactly what they do for the id, on every storage. *)
Theorem normalised_id_is_accepted patient_id st :
  upper (strip (upper (strip patient_id))) = upper (strip patient_id) /\
  view_patient (upper (strip patient_id)) st = view_patient patient_id st /\
  delete_patient (upper (strip patient_id)) st = delete_patient patient_id st.
Proof.
  split; [apply normalize_idem|]. split.
  - unfold view_patient, bind. destruct (load_data st) as [[data|e] st'];
      [|reflexivity].
    cbv zeta. now rewrite normalize_idem.
  - unfold delete_patient, bind. destruct (load_data st) as [[data|e] st'];
      [|reflexivity].
    cbv zeta. now rewrite normalize_idem.
Qed.

(** ** Creating *)

Section CreateFacts.
Context `{Platform}.

(** X3.  After a successful create, [view_patient] answers every id whose
    normalised form is the id of the body (so that id is itself stripped
    and in upper case) with the stored record, in which the six input
    fields have the values of the body and there is no [id]. *)
Theorem create_then_view_returns_input p st resp st' q :
  create_patient p st = (Ok resp, st') ->
  upper (strip q) = Patient.id p ->
  exists r,
    view_patient q st' = (Ok r, accessed Read st') /\
    dict_get "name" r = Some (JStr (Patient.name p)) /\
    dict_get "city" r = Some (JStr (Patient.city p)) /\
    dict_get "age" r = Some (JInt (Patient.age p)) /\
    dict_get "gender" r = Some (JStr (gender_str (Patient.gender p))) /\
    dict_get "height" r = Some (JFloat (Patient.height p)) /\
    dict_get "weight" r = Some (JFloat (Patient.weight p)) /\
    dict_get "id" r = None.
Proof.
  intros Hrun Hq.
  destruct (run_write_cases (Create p) _ _ _ Hrun)
    as [(e & He & _) | (data & p' & d & Hf & [-> _] & Hd & -> & _)];
    [discriminate|].
  destruct (model_dump_exclude_id_ok _ _ Hd) as (b & v & _ & _ & ->).
  exists (dumped p b v).
  erewrite view_patient_normalizes by reflexivity.
  rewrite Hq. simpl written_id. rewrite dict_get_set_same.
  repeat split.
Qed.

(** X4.  A successful create leaves every record of the collection in
    place and adds the new one at the end, under the id of the body; it
    answers 201 with the stored fields preceded by the id, after one read
    and one write. *)
Theorem create_appends_and_answers p st resp st' data :
  file st = Some data ->
  create_patient p st = (Ok resp, st') ->
  exists d,
    st' = {| file := Some (data ++ [(Patient.id p, d)])%list;
             log := log st ++ [Read; Write] |} /\
    status_code resp = 201 /\
    message resp = "Patient created successfully" /\
    patient resp = ("id", JStr (Patient.id p)) :: d.
Proof.
  intros Hf Hrun.
  destruct (run_write_cases (Create p) _ _ _ Hrun)
    as [(e & He & _) | (data' & p' & d & Hf' & [-> Hm] & Hd & -> & Hr)];
    [discriminate|].
  rewrite Hf in Hf'. injection Hf' as <-.
  exists d. simpl written_id.
  assert (Hnone : dict_get (Patient.id p) data = None).
  { unfold dict_mem in Hm. destruct (dict_get _ data); [discriminate|reflexivity]. }
  rewrite (dict_set_absent _ _ _ Hnone). split; [reflexivity|].
  destruct (model_dump_exclude_id_ok _ _ Hd) as (b & v & Hb & Hv & ->).
  simpl in Hr. unfold Patient.model_dump in Hr. rewrite Hb, Hv in Hr.
  simpl in Hr. unfold make_JSONResponse in Hr.
  destruct (json_compliant _); [|discriminate].
  injection Hr as ->. repeat split.
Qed.
End CreateFacts.

Lemma create_then_view_returns_input_witness :
  exists resp st' r,
    (create_patient (H := reference_platform) (john "P001") empty_store
       = (Ok resp, st') /\
     upper (strip " p001") = Patient.id (john "P001")) /\
    view_patient " p001" st' = (Ok r, accessed Read st') /\
    dict_get "name" r = Some (JStr "John Doe") /\
    dict_get "weight" r = Some (JFloat (float_of_ratio 70 1)).
Proof.
  assert (Hrun : exists resp st',
             create_patient (H := reference_platform) (john "P001") empty_store
             = (Ok resp, st')).
  { eexists. eexists. vm_compute. reflexivity. }
  destruct Hrun as (resp & st' & Hrun).
  destruct (create_then_view_returns_input (H := reference_platform)
              (john "P001") empty_store resp st' " p001" Hrun eq_refl)
    as (r & Hview & Hn & _ & _ & _ & _ & Hw & _).
  exists resp, st', r. repeat split; assumption.
Defined.

Lemma create_appends_and_answers_witness :
  exists resp st' d,
    create_patient (H := reference_platform) (john "P007")
      {| file := Some two_patients; log := [] |} = (Ok resp, st') /\
    file st' = Some (two_patients ++ [("P007", d)])%list /\
    status_code resp = 201.
Proof.
  assert (Hrun : exists resp st',
             create_patient (H := reference_platform) (john "P007")
               {| file := Some two_patients; log := [] |} = (Ok resp, st')).
  { eexists. eexists. vm_compute. reflexivity. }
  destruct Hrun as (resp & st' & Hrun).
  destruct (create_appends_and_answers (H := reference_platform)
              (john "P007") {| file := Some two_patients; log := [] |}
              resp st' two_patients eq_refl Hrun)
    as (d & -> & Hs & _).
  exists resp. eexists. exists d.
  split; [exact Hrun|]. split; [reflexivity | assumption].
Defined.

(** ** Updating *)

Section UpdateFacts.
Context `{Platform}.

(** X5.  Whatever the id, the body, the storage and the outcome, an update
    leaves the ids of the collection and their order as they are, and the
    record of every id other than the one in the path. *)
Theorem update_keeps_ids_and_other_records patient_id u st :
  option_map dict_keys (file (snd (update_patient patient_id u st)))
  = option_map dict_keys (file st) /\
  (forall k, k <> patient_id ->
     option_map (dict_get k) (file (snd (update_patient patient_id u st)))
     = option_map (dict_get k) (file st)).
Proof.
  destruct (update_patient patient_id u st) as [r st'] eqn:Hrun. cbn [snd].
  destruct (run_write_cases (Update patient_id u) _ _ _ Hrun)
    as [(e & _ & ->) | (data & p & d & Hf & (existing & Hg & _) & _ & -> & _)].
  - split; [reflexivity | intros; reflexivity].
  - rewrite Hf. simpl. split.
    + f_equal. apply dict_keys_set_present. apply dict_mem_get. eauto.
    + intros k Hk. f_equal. now apply dict_get_set_other.
Qed.

(** X6.  An update that has succeeded, sent again, succeeds with the same
    response and stores the same collection. *)
Theorem update_is_idempotent patient_id u st resp st' :
  update_patient patient_id u st = (Ok resp, st') ->
  update_patient patient_id u st'
  = (Ok resp, {| file := file st'; log := log st' ++ [Read; Write] |}).
Proof.
  intros Hrun.
  destruct (run_write_cases (Update patient_id u) _ _ _ Hrun)
    as [(e & He & _)
       | (data & p & d & Hf & (existing & Hg & Hv) & Hd & -> & Hr)];
    [discriminate|].
  simpl written_id in *. simpl in Hr.
  destruct (model_dump_exclude_id_ok _ _ Hd) as (b & v & _ & _ & ->).
  erewrite (update_patient_run patient_id u _ _ (dumped p b v));
    [|reflexivity|apply dict_get_set_same].
  rewrite (validate_merged_again _ _ _ _ b v Hv), Hd.
  rewrite dict_set_twice, <- Hr. reflexivity.
Qed.

(** An update with an empty body of the dump of a patient that satisfies
    the schema validates to that patient and dumps to the same record. *)
Lemma update_empty_run patient_id st data p b v :
  file st = Some data ->
  dict_get patient_id data = Some (dumped p b v) ->
  Patient.valid p ->
  Patient.bmi p = Ok b -> Patient.verdict p = Ok v ->
  update_patient patient_id empty_update st
  = (make_JSONResponse 200 "Patient updated successfully" (dumped p b v),
     {| file := Some data; log := log st ++ [Read; Write] |}).
Proof.
  intros Hf Hg Hvalid Hb Hv.
  rewrite (update_patient_run _ _ _ _ _ Hf Hg).
  change (merged_record patient_id empty_update (dumped p b v))
    with (dict_set "id" (JStr patient_id) (dumped p b v)).
  rewrite (validate_dumped _ _ _ _ Hvalid).
  set (p' := Patient.mk patient_id _ _ _ _ _ _).
  destruct (bmi_of_height_weight p' p eq_refl eq_refl) as [Hb' Hv'].
  rewrite model_dump_exclude_id, Hb', Hv', Hb, Hv. simpl rbind.
  change (dumped p' b v) with (dumped p b v). cbv iota beta.
  now rewrite (dict_set_same_value _ _ _ Hg).
Qed.

(** X7.  An update with an empty body of a consistent record (the dump of
    a patient that satisfies the schema, with its computed fields) answers
    with that record and stores the collection it has read: the content of
    the file is the same, although it is written. *)
Theorem empty_update_stores_the_same patient_id st data r :
  file st = Some data ->
  dict_get patient_id data = Some r ->
  consistent_record r ->
  update_patient patient_id empty_update st
  = (make_JSONResponse 200 "Patient updated successfully" r,
     {| file := Some data; log := log st ++ [Read; Write] |}).
Proof.
  intros Hf Hg (p & b & v & -> & Hvalid & Hb & Hv).
  now apply update_empty_run.
Qed.

(** X8.  A name or a city that [PatientUpdate] accepts but that is outside
    the lengths of [Patient] (2 to 50, 2 to 100) makes the update of a
    stored patient fail when the merged record is validated: the error
    names the field, and the storage has only been read. *)
Theorem update_rejects_bad_length patient_id u st data existing k s :
  file st = Some data ->
  dict_get patient_id data = Some existing ->
  (k = "name" /\ PatientUpdate.name u = Some (Some s) /\
   (String.length s < 2 \/ 50 < String.length s)%nat) \/
  (k = "city" /\ PatientUpdate.city u = Some (Some s) /\
   (String.length s < 2 \/ 100 < String.length s)%nat) ->
  exists errors r,
    In (k, r) errors /\
    (r = StringTooShort \/ r = StringTooLong) /\
    update_patient patient_id u st
    = (Err (ValidationError errors), accessed Read st).
Proof.
  intros Hf Hg Hbad.
  assert (Herr : exists r,
             In (k, r)
               (validation_errors (merged_record patient_id u existing)) /\
             (r = StringTooShort \/ r = StringTooLong)).
  { unfold validation_errors.
    destruct u as [n c a g h w].
    destruct Hbad as [(-> & Hn & Hlen) | (-> & Hc & Hlen)]; simpl in *; subst.
    - rewrite (dict_get_merged_field _ _ _ "name") by discriminate.
      simpl.
      destruct (Nat.ltb_spec (String.length s) 2).
      + exists StringTooShort. split; [|now left].
        apply in_or_app. right. now left.
      + destruct (Nat.ltb_spec 50 (String.length s)); [|lia].
        exists StringTooLong. split; [|now right].
        apply in_or_app. right. now left.
    - rewrite (dict_get_merged_field _ _ _ "city") by discriminate.
      assert (Hd : dict_get "city"
                     (PatientUpdate.model_dump_exclude_unset
                        (PatientUpdate.mk n (Some (Some s)) a g h w))
                   = Some (JStr s))
        by (destruct n as [[?|]|]; reflexivity).
      rewrite Hd. simpl.
      destruct (Nat.ltb_spec (String.length s) 2).
      + exists StringTooShort. split; [|now left].
        apply in_or_app. right. apply in_or_app. right. now left.
      + destruct (Nat.ltb_spec 100 (String.length s)); [|lia].
        exists StringTooLong. split; [|now right].
        apply in_or_app. right. apply in_or_app. right. now left. }
  destruct Herr as (r & Hin & Hr).
  exists (validation_errors (merged_record patient_id u existing)), r.
  split; [assumption|]. split; [assumption|].
  rewrite (update_patient_run _ _ _ _ _ Hf Hg).
  rewrite validate_fails; [reflexivity|].
  intros Hnil. rewrite Hnil in Hin. contradiction.
Qed.

(** X9.  A patient that satisfies the schema and has been dumped in full
    is validated, from that dump, to itself. *)
Theorem dump_then_validate_round_trip p d :
  Patient.valid p ->
  Patient.model_dump [] p = Ok d ->
  Patient.validate d = Ok p.
Proof.
  intros Hvalid Hd. unfold Patient.model_dump in Hd.
  destruct (Patient.bmi p) as [b|]; [|discriminate].
  destruct (Patient.verdict p) as [v|]; [|discriminate].
  simpl in Hd. injection Hd as <-.
  pose proof (validate_dumped (Patient.id p) p b v Hvalid) as Hv.
  apply validate_ok_iff in Hv. apply validate_ok_iff.
  destruct p; exact Hv.
Qed.

(** X10.  A write whose validated patient has no [bmi] (the square of the
    height overflows, or underflows to zero and the division fails) raises
    that ZeroDivisionError or OverflowError when the patient is dumped, and
    the storage has only been read. *)
Theorem write_fails_when_bmi_fails w st data p e :
  file st = Some data ->
  validated w data p ->
  Patient.bmi p = Err e ->
  run_write w st = (Err e, accessed Read st) /\
  (e = ZeroDivisionError \/ e = OverflowError).
Proof.
  intros Hf Hval Hb. split; [|exact (bmi_error_kinds _ _ Hb)].
  assert (Hd : Patient.model_dump ["id"] p = Err e)
    by (rewrite model_dump_exclude_id, Hb; reflexivity).
  destruct w as [q|pid u]; simpl in *.
  - destruct Hval as [-> Hm].
    rewrite (create_patient_run _ _ _ Hf), Hm, Hd. reflexivity.
  - destruct Hval as (existing & Hg & Hv).
    rewrite (update_patient_run _ _ _ _ _ Hf Hg), Hv, Hd. reflexivity.
Qed.

(** X11.  Writes keep the collection consistent.  For a create whose body
    satisfies the schema and for every update, whatever the outcome: the
    file still holds a collection; if every stored record was consistent
    (the dump of a patient that satisfies the schema, with the computed
    fields of that patient), every stored record is; and after a success
    the record under the id of the request is consistent, whatever the
    collection held before.  A delete keeps a consistent collection
    consistent as well. *)
Theorem writes_keep_the_collection_consistent w st data r st' :
  file st = Some data ->
  match w with
  | Create p => Patient.valid p
  | Update _ _ => True
  end ->
  run_write w st = (r, st') ->
  exists data',
    file st' = Some data' /\
    (consistent data -> consistent data') /\
    (forall resp, r = Ok resp ->
       exists stored,
         dict_get (written_id w) data' = Some stored /\
         consistent_record stored) /\
    (forall patient_id,
       consistent data ->
       exists data'',
         file (snd (delete_patient patient_id st)) = Some data'' /\
         consistent data'').
Proof.
  intros Hf Hbody Hrun.
  assert (Hdel : forall patient_id,
             consistent data ->
             exists data'',
               file (snd (delete_patient patient_id st)) = Some data'' /\
               consistent data'').
  { intros pid Hcons. rewrite (delete_patient_normalizes _ _ _ Hf).
    destruct (dict_mem _ data).
    - eexists. split; [reflexivity|]. now apply Forall_dict_del.
    - exists data. split; [exact Hf | assumption]. }
  destruct (run_write_cases _ _ _ _ Hrun)
    as [(e & -> & ->) | (data0 & p & d & Hf' & Hval & Hd & -> & _)].
  - exists data. split; [exact Hf|]. split; [auto|].
    split; [discriminate | exact Hdel].
  - rewrite Hf in Hf'. injection Hf' as <-.
    assert (Hrec : consistent_record d).
    { destruct w as [q|pid u]; simpl in Hval.
      - destruct Hval as [-> _].
        destruct (model_dump_exclude_id_ok _ _ Hd) as (b & v & Hb & Hv & ->).
        exists q, b, v. repeat split; try assumption;
          destruct Hbody as (? & ? & ? & ? & ?); solve [lia | assumption].
      - destruct Hval as (existing & _ & Hv).
        exact (validated_dump_consistent _ _ _ Hv Hd). }
    exists (dict_set (written_id w) d data). split; [reflexivity|].
    split; [|split].
    + intros Hcons. apply Forall_dict_set; auto.
    + intros resp _. exists d. split; [apply dict_get_set_same | exact Hrec].
    + exact Hdel.
Qed.
End UpdateFacts.

(** The scenario store, updated twice with [{"age": 40}]. *)
Lemma update_is_idempotent_witness :
  exists resp st',
    update_patient (H := reference_platform) "P001" (age_only (Some 40))
      scenario_store = (Ok resp, st') /\
    update_patient (H := reference_platform) "P001" (age_only (Some 40)) st'
    = (Ok resp, {| file := file st'; log := log st' ++ [Read; Write] |}).
Proof.
  assert (Hrun : exists resp st',
             update_patient (H := reference_platform) "P001"
               (age_only (Some 40)) scenario_store = (Ok resp, st')).
  { eexists. eexists. vm_compute. reflexivity. }
  destruct Hrun as (resp & st' & Hrun).
  exists resp, st'. split; [exact Hrun|].
  exact (update_is_idempotent (H := reference_platform) _ _ _ _ _ Hrun).
Defined.

Lemma john_dumped_consistent :
  consistent_record (H := reference_platform) john_dumped.
Proof.
  exists (john "P001"), (float_of_ratio 2286 100), "Normal weight".
  split; [reflexivity|]. split.
  - unfold Patient.valid. simpl.
    repeat split; try lia; vm_compute; reflexivity.
  - split; vm_compute; reflexivity.
Qed.

Lemma two_patients_consistent :
  consistent (H := reference_platform) two_patients.
Proof.
  constructor; [exact john_dumped_consistent|].
  constructor; [|constructor].
  eexists _, _, _. split; [reflexivity|]. split.
  - unfold Patient.valid. simpl.
    repeat split; try lia; vm_compute; reflexivity.
  - split; vm_compute; reflexivity.
Qed.

Lemma empty_update_stores_the_same_witness :
  dict_get "P001" two_patients = Some john_dumped /\
  update_patient (H := reference_platform) "P001" empty_update
    {| file := Some two_patients; log := [] |}
  = (make_JSONResponse 200 "Patient updated successfully" john_dumped,
     {| file := Some two_patients; log := [Read; Write] |}).
Proof.
  split; [reflexivity|].
  exact (empty_update_stores_the_same (H := reference_platform) "P001"
           {| file := Some two_patients; log := [] |} two_patients
           john_dumped eq_refl eq_refl john_dumped_consistent).
Defined.

(** The one-letter name "J" for the patient of the scenario store. *)
Lemma update_rejects_bad_length_witness :
  exists errors r,
    In ("name", r) errors /\
    (r = StringTooShort \/ r = StringTooLong) /\
    update_patient (H := reference_platform) "P001"
      (PatientUpdate.mk (Some (Some "J")) None None None None None)
      scenario_store
    = (Err (ValidationError errors), accessed Read scenario_store).
Proof.
  apply (update_rejects_bad_length (H := reference_platform) "P001"
           (PatientUpdate.mk (Some (Some "J")) None None None None None)
           scenario_store [("P001", john_stored)] john_stored "name" "J"
           eq_refl eq_refl).
  left. split; [reflexivity|]. split; [reflexivity|]. left. simpl. lia.
Defined.

Lemma dump_then_validate_round_trip_witness :
  exists d,
    Patient.model_dump (H := reference_platform) [] (john "P001") = Ok d /\
    Patient.validate (H := reference_platform) d = Ok (john "P001").
Proof.
  eexists. split; [vm_compute; reflexivity|].
  apply (dump_then_validate_round_trip (H := reference_platform)).
  - unfold Patient.valid. simpl.
    repeat split; try lia; vm_compute; reflexivity.
  - vm_compute. reflexivity.
Defined.

(** A height of 2^-600 m gives a ZeroDivisionError, one of 2^600 m an
    OverflowError; both heights are positive. *)
Lemma write_fails_when_bmi_fails_witness :
  (Patient.valid (john_with_height tiny_height) /\
   run_write (H := reference_platform) (Create (john_with_height tiny_height))
     empty_store = (Err ZeroDivisionError, accessed Read empty_store)) /\
  (Patient.valid (john_with_height huge_height) /\
   run_write (H := reference_platform) (Create (john_with_height huge_height))
     empty_store = (Err OverflowError, accessed Read empty_store)).
Proof.
  split; (split;
    [ unfold Patient.valid; simpl;
      repeat split; try lia; vm_compute; reflexivity |]).
  - apply (write_fails_when_bmi_fails (H := reference_platform)
             (Create (john_with_height tiny_height)) empty_store []
             (john_with_height tiny_height) ZeroDivisionError eq_refl).
    + split; reflexivity.
    + vm_compute. reflexivity.
  - apply (write_fails_when_bmi_fails (H := reference_platform)
             (Create (john_with_height huge_height)) empty_store []
             (john_with_height huge_height) OverflowError eq_refl).
    + split; reflexivity.
    + vm_compute. reflexivity.
Defined.

Lemma writes_keep_the_collection_consistent_witness :
  exists r st' data',
    run_write (H := reference_platform) (Create (john "P007"))
      {| file := Some two_patients; log := [] |} = (r, st') /\
    file st' = Some data' /\
    consistent (H := reference_platform) data'.
Proof.
  assert (Hvalid : Patient.valid (john "P007")).
  { unfold Patient.valid. simpl.
    repeat split; try lia; vm_compute; reflexivity. }
  destruct (run_write (H := reference_platform) (Create (john "P007"))
              {| file := Some two_patients; log := [] |}) as [r st'] eqn:Hrun.
  destruct (writes_keep_the_collection_consistent (H := reference_platform)
              (Create (john "P007")) {| file := Some two_patients; log := [] |}
              two_patients r st' eq_refl Hvalid Hrun)
    as (data' & Hf & Hcons & _).
  exists r, st', data'. split; [reflexivity|]. split; [exact Hf|].
  exact (Hcons two_patients_consistent).
Defined.

(** ** Sorting and reading *)

(** X12.  When the value sorted by is the same number in every record (for
    instance 0, the field being absent from all of them), [sort_patients]
    returns the records in the order of the file, for asc and for desc
    alike: a descending sort does not reverse ties. *)
Theorem sort_of_equal_keys_is_file_order sort_by order st data v :
  file st = Some data ->
  str_in sort_by valid_sort_fields = true ->
  str_in (match order with Some o => o | None => "asc" end) ["asc"; "desc"]
    = true ->
  Forall (fun r => x_eqb (num_of (sort_key sort_by r)) v = true)
    (dict_values data) ->
  sort_patients sort_by order st = (Ok (dict_values data), accessed Read st).
Proof.
  intros Hf Hfield Horder Hall.
  rewrite (sort_patients_run _ _ _ _ Hf Hfield Horder).
  assert (Hnum : Forall (fun r => ordered (num_of (sort_key sort_by r)))
                   (dict_values data)).
  { eapply Forall_impl; [|exact Hall]. intros r Hr.
    unfold x_eqb in Hr. apply andb_prop in Hr.
    exact (proj1 (x_leb_ordered _ _ (proj1 Hr))). }
  destruct (sorted_spec (sort_key sort_by) (dict_values data)
              (descending order) Hnum)
    as (out & -> & Hperm & _ & Hstable).
  specialize (Hstable v).
  rewrite (filter_all _ _ Hall) in Hstable.
  rewrite filter_all in Hstable
    by exact (Permutation_Forall (Permutation_sym Hperm) Hall).
  now rewrite Hstable.
Qed.

(** No record of [weights] has a height: sorted by height, descending, they
    come as they are in the file. *)
Lemma sort_of_equal_keys_is_file_order_witness :
  Forall (fun r => x_eqb (num_of (sort_key "height" r)) (XFin 0) = true)
    (dict_values weights) /\
  sort_patients "height" (Some "desc") {| file := Some weights; log := [] |}
  = (Ok (dict_values weights), {| file := Some weights; log := [Read] |}).
Proof.
  assert (Hall : Forall (fun r => x_eqb (num_of (sort_key "height" r))
                                    (XFin 0) = true) (dict_values weights))
    by (repeat constructor).
  split; [exact Hall|].
  exact (sort_of_equal_keys_is_file_order "height" (Some "desc")
           {| file := Some weights; log := [] |} weights (XFin 0)
           eq_refl eq_refl eq_refl Hall).
Defined.

(** X13.  The handlers of the GET routes never write: whatever their
    arguments and the storage, [view_patients], [view_patient] and
    [sort_patients] leave the file as it is and add at most one read to the
    log. *)
Theorem get_handlers_never_write patient_id sort_by order st :
  (file (snd (view_patients st)) = file st /\
   log (snd (view_patients st)) = log st ++ [Read])%list /\
  (file (snd (view_patient patient_id st)) = file st /\
   log (snd (view_patient patient_id st)) = log st ++ [Read])%list /\
  (file (snd (sort_patients sort_by order st)) = file st /\
   (log (snd (sort_patients sort_by order st)) = log st \/
    log (snd (sort_patients sort_by order st)) = log st ++ [Read]))%list.
Proof.
  split; [|split].
  - unfold view_patients, load_data. destruct (file st); split; reflexivity.
  - unfold view_patient, bind, load_data.
    destruct (file st) as [data|]; [|split; reflexivity].
    cbv zeta. destruct (dict_get _ data); split; reflexivity.
  - unfold sort_patients. cbv zeta.
    destruct (negb (str_in sort_by valid_sort_fields));
      [split; [reflexivity | now left]|].
    destruct (negb (str_in _ ["asc"; "desc"]));
      [split; [reflexivity | now left]|].
    unfold bind, load_data, lift.
    destruct (file st); split; try reflexivity; now right.
Qed.

(** ** Creating and deleting *)

(** X14.  After a successful create, deleting any id whose normalised form
    is the id of the body succeeds and stores the collection as it was
    before the create. *)
Theorem create_then_delete_restores `{Platform} p st data resp st' q :
  file st = Some data ->
  create_patient p st = (Ok resp, st') ->
  upper (strip q) = Patient.id p ->
  delete_patient q st'
  = (Ok "Patient deleted successfully",
     {| file := Some data; log := log st' ++ [Read; Write] |}).
Proof.
  intros Hf Hrun Hq.
  destruct (run_write_cases (Create p) _ _ _ Hrun)
    as [(e & He & _) | (data' & p' & d & Hf' & [-> Hm] & _ & -> & _)];
    [discriminate|].
  rewrite Hf in Hf'. injection Hf' as <-.
  erewrite delete_patient_normalizes by reflexivity.
  rewrite Hq. simpl written_id.
  unfold dict_mem at 1. rewrite dict_get_set_same.
  assert (Hnone : dict_get (Patient.id p) data = None).
  { unfold dict_mem in Hm. destruct (dict_get _ data); [discriminate|reflexivity]. }
  now rewrite (dict_del_set_absent _ _ _ Hnone).
Qed.

Lemma create_then_delete_restores_witness :
  exists resp st',
    create_patient (H := reference_platform) (john "P007")
      {| file := Some two_patients; log := [] |} = (Ok resp, st') /\
    delete_patient "p007 " st'
    = (Ok "Patient deleted successfully",
       {| file := Some two_patients; log := log st' ++ [Read; Write] |}).
Proof.
  assert (Hrun : exists resp st',
             create_patient (H := reference_platform) (john "P007")
               {| file := Some two_patients; log := [] |} = (Ok resp, st')).
  { eexists. eexists. vm_compute. reflexivity. }
  destruct Hrun as (resp & st' & Hrun).
  exists resp, st'. split; [exact Hrun|].
  exact (create_then_delete_restores (H := reference_platform)
           (john "P007") {| file := Some two_patients; log := [] |}
           two_patients resp st' "p007 " eq_refl Hrun eq_refl).
Defined.

(** ** A missing file, incomplete records, and requests in sequence *)

Section SequenceFacts.
Context `{Platform}.

(** X15.  When [patients.json] is missing or is not JSON, every handler
    that loads it raises the error of [load_data] after that one read, and
    none creates the file, not even [create_patient]. *)
Theorem missing_file_is_never_created w patient_id sort_by order st :
  file st = None ->
  view_patients st = (Err StorageError, accessed Read st) /\
  view_patient patient_id st = (Err StorageError, accessed Read st) /\
  run_write w st = (Err StorageError, accessed Read st) /\
  delete_patient patient_id st = (Err StorageError, accessed Read st) /\
  (str_in sort_by valid_sort_fields = true ->
   str_in (match order with Some o => o | None => "asc" end) ["asc"; "desc"]
     = true ->
   sort_patients sort_by order st = (Err StorageError, accessed Read st)) /\
  file (accessed Read st) = None.
Proof.
  intros Hf. repeat split.
  - exact (load_data_missing _ Hf).
  - unfold view_patient, bind. now rewrite (load_data_missing _ Hf).
  - exact (write_without_file _ _ Hf).
  - unfold delete_patient, bind. now rewrite (load_data_missing _ Hf).
  - intros Hfield Horder. unfold sort_patients. cbv zeta.
    rewrite Hfield, Horder. cbn [negb]. unfold bind.
    now rewrite (load_data_missing _ Hf).
  - exact Hf.
Qed.

(** X16.  After a successful create of a body that satisfies the schema,
    an update with an empty body under the id of that body, taken as it is,
    finds the record, succeeds, and stores the same collection; its
    response carries the record of the create response without the [id]. *)
Theorem create_then_empty_update p st resp st' :
  Patient.valid p ->
  create_patient p st = (Ok resp, st') ->
  exists resp',
    update_patient (Patient.id p) empty_update st'
    = (Ok resp', {| file := file st'; log := log st' ++ [Read; Write] |}) /\
    patient resp = ("id", JStr (Patient.id p)) :: patient resp'.
Proof.
  intros Hvalid Hrun.
  destruct (run_write_cases (Create p) _ _ _ Hrun)
    as [(e & He & _) | (data & p' & d & Hf & [-> _] & Hd & -> & Hr)];
    [discriminate|].
  destruct (model_dump_exclude_id_ok _ _ Hd) as (b & v & Hb & Hv & ->).
  simpl written_id. simpl in Hr.
  unfold Patient.model_dump in Hr. rewrite Hb, Hv in Hr. simpl in Hr.
  unfold make_JSONResponse in Hr.
  destruct (json_compliant _) eqn:Hj; [|discriminate].
  injection Hr as ->.
  assert (Hj' : json_compliant (dumped p b v) = true) by exact Hj.
  rewrite (update_empty_run (Patient.id p)
             {| file := Some (dict_set (Patient.id p) (dumped p b v) data);
                log := log st ++ [Read; Write] |}
             (dict_set (Patient.id p) (dumped p b v) data) p b v
             eq_refl (dict_get_set_same _ _ _) Hvalid Hb Hv).
  unfold make_JSONResponse. rewrite Hj'.
  eexists. split; reflexivity.
Qed.

(** X17.  Creating again under an id that a successful create has just
    stored, with whatever body, is a conflict: a 400 "Patient ID already
    exists" after one read, the file being kept. *)
Theorem create_twice_conflicts p p2 st resp st' :
  create_patient p st = (Ok resp, st') ->
  Patient.id p2 = Patient.id p ->
  create_patient p2 st' = (Err Conflict, accessed Read st').
Proof.
  intros Hrun Hid.
  destruct (run_write_cases (Create p) _ _ _ Hrun)
    as [(e & He & _) | (data & p' & d & Hf & [-> _] & _ & -> & _)];
    [discriminate|].
  erewrite create_patient_run by reflexivity.
  simpl written_id. unfold dict_mem. rewrite Hid, dict_get_set_same.
  reflexivity.
Qed.

Lemma missing_field_invalid d k :
  In k input_fields -> dict_get k d = None ->
  In (k, Missing) (validation_errors d).
Proof.
  unfold input_fields, validation_errors. intros Hin Hnone.
  simpl in Hin.
  repeat match goal with
         | Hk : _ \/ _ |- _ => destruct Hk as [<-|Hk]
         | Hk : False |- _ => contradiction
         end;
    rewrite Hnone; simpl;
    repeat first [left; reflexivity | apply in_or_app; right].
Qed.

(** X18.  When the stored value lacks one of the six input fields and the
    body does not send it, the update fails the validation of the merged
    record with an error that reports the field as missing, and the
    storage has only been read. *)
Theorem update_of_incomplete_record patient_id u st data existing k :
  file st = Some data ->
  dict_get patient_id data = Some existing ->
  In k input_fields ->
  dict_get k existing = None ->
  dict_get k (PatientUpdate.model_dump_exclude_unset u) = None ->
  exists errors,
    In (k, Missing) errors /\
    update_patient patient_id u st
    = (Err (ValidationError errors), accessed Read st).
Proof.
  intros Hf Hg Hk Hnone Hunset.
  assert (Hid : k <> "id").
  { intros ->. unfold input_fields in Hk. simpl in Hk.
    intuition discriminate. }
  assert (Hmerged : dict_get k (merged_record patient_id u existing) = None).
  { rewrite dict_get_merged_field by assumption. now rewrite Hunset. }
  pose proof (missing_field_invalid _ _ Hk Hmerged) as Hin.
  exists (validation_errors (merged_record patient_id u existing)).
  split; [assumption|].
  rewrite (update_patient_run _ _ _ _ _ Hf Hg).
  rewrite validate_fails; [reflexivity|].
  intros Hnil. rewrite Hnil in Hin. contradiction.
Qed.
End SequenceFacts.

Lemma missing_file_is_never_created_witness :
  run_write (H := reference_platform) (Create (john "P001"))
    {| file := None; log := [] |}
  = (Err StorageError, {| file := None; log := [Read] |}).
Proof.
  exact (proj1 (proj2 (proj2 (missing_file_is_never_created
                                (H := reference_platform)
                                (Create (john "P001")) "P001" "bmi" None
                                {| file := None; log := [] |} eq_refl)))).
Defined.

Lemma create_then_empty_update_witness :
  exists resp st' resp',
    create_patient (H := reference_platform) (john "p001") empty_store
      = (Ok resp, st') /\
    update_patient (H := reference_platform) "p001" empty_update st'
    = (Ok resp', {| file := file st'; log := log st' ++ [Read; Write] |}) /\
    patient resp = ("id", JStr "p001") :: patient resp'.
Proof.
  assert (Hvalid : Patient.valid (john "p001")).
  { unfold Patient.valid. simpl.
    repeat split; try lia; vm_compute; reflexivity. }
  assert (Hrun : exists resp st',
             create_patient (H := reference_platform) (john "p001") empty_store
             = (Ok resp, st')).
  { eexists. eexists. vm_compute. reflexivity. }
  destruct Hrun as (resp & st' & Hrun).
  destruct (create_then_empty_update (H := reference_platform)
              (john "p001") empty_store resp st' Hvalid Hrun)
    as (resp' & Hup & Hp).
  exists resp, st', resp'. repeat split; assumption.
Defined.

Lemma create_twice_conflicts_witness :
  exists resp st',
    create_patient (H := reference_platform) (john "P001") empty_store
      = (Ok resp, st') /\
    create_patient (H := reference_platform) (john "P001") st'
    = (Err Conflict, accessed Read st').
Proof.
  assert (Hrun : exists resp st',
             create_patient (H := reference_platform) (john "P001") empty_store
             = (Ok resp, st')).
  { eexists. eexists. vm_compute. reflexivity. }
  destruct Hrun as (resp & st' & Hrun).
  exists resp, st'. split; [exact Hrun|].
  exact (create_twice_conflicts (H := reference_platform)
           (john "P001") (john "P001") empty_store resp st' Hrun eq_refl).
Defined.

(** The record "B" of [weights] has a name and nothing else: an update
    that sends only the age fails on the missing city. *)
Lemma update_of_incomplete_record_witness :
  exists errors,
    In ("city", Missing) errors /\
    update_patient (H := reference_platform) "B" (age_only (Some 40))
      {| file := Some weights; log := [] |}
    = (Err (ValidationError errors),
       accessed Read {| file := Some weights; log := [] |}).
Proof.
  apply (update_of_incomplete_record (H := reference_platform) "B"
           (age_only (Some 40)) {| file := Some weights; log := [] |}
           weights [("name", JStr "b")] "city" eq_refl eq_refl).
  - simpl. tauto.
  - reflexivity.
  - reflexivity.
Defined.

(** ** Ascending and descending *)

(** Two sorted lists with the same elements are the same list, when the
    order is antisymmetric on these elements. *)
Lemma sorted_permutation_unique {B} (R : B -> B -> Prop) (l1 l2 : list B) :
  (forall a b, In a l1 -> In b l1 -> R a b -> R b a -> a = b) ->
  StronglySorted R l1 -> StronglySorted R l2 ->
  Permutation l1 l2 -> l1 = l2.
Proof.
  revert l2. induction l1 as [|a t1 IH]; intros l2 Hanti Hs1 Hs2 Hperm.
  - apply Permutation_nil in Hperm. now subst.
  - destruct l2 as [|b t2].
    { apply Permutation_sym, Permutation_nil in Hperm. discriminate. }
    apply StronglySorted_inv in Hs1, Hs2.
    destruct Hs1 as [Hs1 Ha], Hs2 as [Hs2 Hb].
    rewrite Forall_forall in Ha, Hb.
    assert (Hab : a = b).
    { assert (Hina : In a (b :: t2))
        by (apply (Permutation_in _ Hperm); now left).
      assert (Hinb : In b (a :: t1))
        by (apply (Permutation_in _ (Permutation_sym Hperm)); now left).
      destruct Hina as [->|Hina]; [reflexivity|].
      destruct Hinb as [->|Hinb]; [reflexivity|].
      apply Hanti; [now left | now right | now apply Ha | now apply Hb]. }
    subst b. f_equal. apply IH; try assumption.
    + intros x y Hx Hy. apply Hanti; now right.
    + exact (Permutation_cons_inv Hperm).
Qed.

(** X19.  When the value sorted by is a number other than NaN in every
    record and records with equal values are equal records, the
    descending sort is the ascending sort read backwards. *)
Theorem desc_is_reverse_of_asc sort_by st data :
  file st = Some data ->
  str_in sort_by valid_sort_fields = true ->
  Forall (fun r => ordered (num_of (sort_key sort_by r))) (dict_values data) ->
  (forall a b,
     In a (dict_values data) -> In b (dict_values data) ->
     x_eqb (num_of (sort_key sort_by a)) (num_of (sort_key sort_by b)) = true ->
     a = b) ->
  exists out,
    sort_patients sort_by (Some "asc") st = (Ok out, accessed Read st) /\
    sort_patients sort_by (Some "desc") st = (Ok (rev out), accessed Read st).
Proof.
  intros Hf Hfield Hnum Hdistinct.
  rewrite (sort_patients_run _ (Some "asc") _ _ Hf Hfield eq_refl).
  rewrite (sort_patients_run _ (Some "desc") _ _ Hf Hfield eq_refl).
  destruct (sorted_spec (sort_key sort_by) (dict_values data) false Hnum)
    as (asc & Hasc & Hperm_a & Hsorted_a & _).
  destruct (sorted_spec (sort_key sort_by) (dict_values data) true Hnum)
    as (desc & Hdesc & Hperm_d & Hsorted_d & _).
  simpl descending. rewrite Hasc, Hdesc.
  exists asc. split; [reflexivity|]. f_equal. f_equal.
  apply (sorted_permutation_unique
           (fun a b => x_leb (num_of (sort_key sort_by b))
                         (num_of (sort_key sort_by a)) = true)).
  - intros a b Ha Hb Hab Hba.
    apply Hdistinct.
    + exact (Permutation_in _ Hperm_d Ha).
    + exact (Permutation_in _ Hperm_d Hb).
    + unfold x_eqb. now rewrite Hab, Hba.
  - exact Hsorted_d.
  - exact (StronglySorted_rev _ _ Hsorted_a).
  - rewrite Hperm_d, <- Permutation_rev. now apply Permutation_sym.
Qed.

(** The two patients of [two_patients] have the bmi 22.86 and 32.03. *)
Lemma desc_is_reverse_of_asc_witness :
  exists out,
    sort_patients "bmi" (Some "asc") {| file := Some two_patients; log := [] |}
      = (Ok out, {| file := Some two_patients; log := [Read] |}) /\
    sort_patients "bmi" (Some "desc") {| file := Some two_patients; log := [] |}
      = (Ok (rev out), {| file := Some two_patients; log := [Read] |}) /\
    List.length out = 2%nat.
Proof.
  assert (Hnum : Forall (fun r => ordered (num_of (sort_key "bmi" r)))
                   (dict_values two_patients)).
  { repeat constructor; unfold ordered; vm_compute; discriminate. }
  assert (Hdistinct : forall a b,
             In a (dict_values two_patients) ->
             In b (dict_values two_patients) ->
             x_eqb (num_of (sort_key "bmi" a)) (num_of (sort_key "bmi" b))
               = true -> a = b).
  { intros a b [<-|[<-|[]]] [<-|[<-|[]]] Heq; try reflexivity;
      vm_compute in Heq; discriminate. }
  destruct (desc_is_reverse_of_asc "bmi"
              {| file := Some two_patients; log := [] |} two_patients
              eq_refl eq_refl Hnum Hdistinct) as (out & Hasc & Hdesc).
  exists out. split; [exact Hasc|]. split; [exact Hdesc|].
  assert (Hout : fst (sort_patients "bmi" (Some "asc")
                        {| file := Some two_patients; log := [] |}) = Ok out)
    by now rewrite Hasc.
  vm_compute in Hout. injection Hout as <-. reflexivity.
Defined.

(** ** An update of the age alone, on every record that validates *)

Section AgeOnly.
Context `{Platform}.

(** What validates under a key has that key as its id, and its input fields
    are stored as the strings and numbers they validate from. *)
Lemma validate_under_key patient_id r p :
  Patient.validate (dict_set "id" (JStr patient_id) r) = Ok p ->
  Patient.id p = patient_id /\
  dict_get "name" r = Some (JStr (Patient.name p)) /\
  dict_get "city" r = Some (JStr (Patient.city p)) /\
  dict_get "gender" r = Some (JStr (gender_str (Patient.gender p))) /\
  validate_float (dict_get "height" r) = Valid (Patient.height p) /\
  validate_float (dict_get "weight" r) = Valid (Patient.weight p).
Proof.
  intros Hv. apply validate_ok_iff in Hv.
  destruct Hv as (Hi & Hn & Hc & _ & Hg & Hh & Hw).
  rewrite dict_get_set_same in Hi.
  rewrite dict_get_set_other in Hn, Hc, Hg, Hh, Hw by discriminate.
  apply validate_str_valid in Hi, Hn, Hc.
  apply validate_gender_valid in Hg.
  destruct Hi as [[= Hi] _], Hn as [Hn _], Hc as [Hc _].
  repeat split; auto.
Qed.

(** Merging the age 40 into a record that validates gives a record that
    validates, to the same patient with the age 40. *)
Lemma validate_merged_age_40 patient_id r p :
  Patient.validate (dict_set "id" (JStr patient_id) r) = Ok p ->
  Patient.validate (merged_record patient_id (age_only (Some 40)) r)
  = Ok (with_age p 40).
Proof.
  intros Hv. apply validate_ok_iff in Hv. apply validate_ok_iff.
  destruct Hv as (Hi & Hn & Hc & _ & Hg & Hh & Hw).
  rewrite dict_get_set_same in Hi.
  rewrite dict_get_set_other in Hn, Hc, Hg, Hh, Hw by discriminate.
  rewrite dict_get_merged_id.
  rewrite !dict_get_merged_field by discriminate.
  simpl. repeat split; assumption.
Qed.

(** C7, as the code has it.  Let the collection hold, under [patient_id],
    a value [r] that validates as a patient [p] whose [bmi] can be computed.
    The update [{"age": 40}] then stores, in the place of [r], the dump of
    [p] with the age 40, and answers with it:
    - read back as a patient, the new record is [p] with the age 40, and
      its [age] is 40;
    - [name], [city] and [gender] are stored as they were, [height] and
      [weight] hold the floats the stored values validate to, and are
      stored as they were when they were floats;
    - [bmi] and [verdict] are the ones [Patient] computes for the merged,
      revalidated record;
    - when [r] was itself such a dump, the new record is [r] with 40 under
      [age] and nothing else changed;
    - every other id of the collection keeps its record and its place. *)
Theorem update_age_changes_only_age patient_id r data st p b :
  file st = Some data ->
  dict_get patient_id data = Some r ->
  Patient.validate (dict_set "id" (JStr patient_id) r) = Ok p ->
  Patient.bmi p = Ok b ->
  exists v,
    Patient.verdict p = Ok v /\
    update_patient patient_id (age_only (Some 40)) st
      = (make_JSONResponse 200 "Patient updated successfully"
           (dumped (with_age p 40) b v),
         {| file := Some (dict_set patient_id
                            (dumped (with_age p 40) b v) data);
            log := log st ++ [Read; Write] |}) /\
    (json_compliant (dumped p b v) = true ->
     make_JSONResponse 200 "Patient updated successfully"
       (dumped (with_age p 40) b v)
     = Ok {| status_code := 200;
             message := "Patient updated successfully";
             patient := dumped (with_age p 40) b v |}) /\
    Patient.validate
      (dict_set "id" (JStr patient_id) (dumped (with_age p 40) b v))
      = Ok (with_age p 40) /\
    dict_get "age" (dumped (with_age p 40) b v) = Some (JInt 40) /\
    dict_get "name" (dumped (with_age p 40) b v) = dict_get "name" r /\
    dict_get "city" (dumped (with_age p 40) b v) = dict_get "city" r /\
    dict_get "gender" (dumped (with_age p 40) b v) = dict_get "gender" r /\
    (dict_get "height" (dumped (with_age p 40) b v)
       = Some (JFloat (Patient.height p)) /\
     validate_float (dict_get "height" r) = Valid (Patient.height p) /\
     forall f, dict_get "height" r = Some (JFloat f) ->
               dict_get "height" (dumped (with_age p 40) b v)
               = dict_get "height" r) /\
    (dict_get "weight" (dumped (with_age p 40) b v)
       = Some (JFloat (Patient.weight p)) /\
     validate_float (dict_get "weight" r) = Valid (Patient.weight p) /\
     forall f, dict_get "weight" r = Some (JFloat f) ->
               dict_get "weight" (dumped (with_age p 40) b v)
               = dict_get "weight" r) /\
    (Patient.validate (merged_record patient_id (age_only (Some 40)) r)
       = Ok (with_age p 40) /\
     Patient.bmi (with_age p 40) = Ok b /\
     Patient.verdict (with_age p 40) = Ok v /\
     dict_get "bmi" (dumped (with_age p 40) b v) = Some (JFloat b) /\
     dict_get "verdict" (dumped (with_age p 40) b v) = Some (JStr v) /\
     dict_keys (dumped (with_age p 40) b v) = dumped_fields) /\
    (forall q, r = dumped q b v ->
       dumped (with_age p 40) b v = dict_set "age" (JInt 40) r) /\
    (forall k, k <> patient_id ->
       dict_get k (dict_set patient_id (dumped (with_age p 40) b v) data)
       = dict_get k data) /\
    dict_keys (dict_set patient_id (dumped (with_age p 40) b v) data)
      = dict_keys data.
Proof.
  intros Hf Hg Hval Hb.
  destruct (update_age_of_validating_record _ _ _ _ _ _ Hf Hg Hval Hb)
    as (v & Hv & Hrun).
  destruct (validate_under_key _ _ _ Hval)
    as (Hid & Hn & Hc & Hgd & Hh & Hw).
  destruct (bmi_of_height_weight (with_age p 40) p eq_refl eq_refl)
    as [Hb' Hv'].
  rewrite Hb in Hb'. rewrite Hv in Hv'.
  assert (Hvalid : Patient.valid (with_age p 40)).
  { destruct (validate_sound _ _ Hval) as (? & ? & ? & ? & ?).
    unfold Patient.valid, with_age. simpl. repeat split; try assumption; lia. }
  assert (Hfloat : forall v0 x f,
             validate_float v0 = Valid x -> v0 = Some (JFloat f) -> f = x).
  { intros v0 x f Hx ->. simpl in Hx.
    now destruct (float_gt0_valid _ _ Hx) as [-> _]. }
  exists v. split; [assumption|]. split; [exact Hrun|].
  split.
  { intros Hj. unfold make_JSONResponse.
    replace (json_compliant (dumped (with_age p 40) b v))
      with (json_compliant (dumped p b v)) by reflexivity.
    now rewrite Hj. }
  split.
  { rewrite (validate_dumped _ _ _ _ Hvalid). unfold with_age. simpl.
    now rewrite Hid. }
  split; [reflexivity|].
  split; [now rewrite Hn|]. split; [now rewrite Hc|].
  split; [now rewrite Hgd|].
  split.
  { split; [reflexivity|]. split; [assumption|].
    intros f Hf'. rewrite Hf'. simpl.
    now rewrite (Hfloat _ _ _ Hh Hf'). }
  split.
  { split; [reflexivity|]. split; [assumption|].
    intros f Hf'. rewrite Hf'. simpl.
    now rewrite (Hfloat _ _ _ Hw Hf'). }
  split.
  { split; [now apply validate_merged_age_40|].
    repeat split; assumption. }
  split.
  { intros q ->. simpl in Hn, Hc, Hgd, Hh, Hw.
    injection Hn as Hn. injection Hc as Hc. injection Hgd as Hgd.
    destruct (float_gt0_valid _ _ Hh) as [Hh' _].
    destruct (float_gt0_valid _ _ Hw) as [Hw' _].
    unfold dumped, with_age. simpl.
    now rewrite <- Hn, <- Hc, <- Hgd, Hh', Hw'. }
  split.
  - intros k Hk. now apply dict_get_set_other.
  - apply dict_keys_set_present. apply dict_mem_get. eauto.
Qed.
End AgeOnly.

(** The record of the scenario store, six input fields with the integer
    weight 70: after the update it has the age 40, the weight 70.0, and the
    [bmi] 22.86 and the [verdict] "Normal weight" besides. *)
Lemma update_age_changes_only_age_witness :
  (Patient.validate (H := reference_platform)
     (dict_set "id" (JStr "P001") john_stored) = Ok (john "P001") /\
   Patient.bmi (H := reference_platform) (john "P001")
     = Ok (float_of_ratio 2286 100)) /\
  exists v,
    Patient.verdict (H := reference_platform) (john "P001") = Ok v /\
    update_patient (H := reference_platform) "P001" (age_only (Some 40))
      scenario_store
    = (make_JSONResponse 200 "Patient updated successfully"
         (dumped (with_age (john "P001") 40) (float_of_ratio 2286 100) v),
       {| file := Some [("P001",
                         dumped (with_age (john "P001") 40)
                           (float_of_ratio 2286 100) v)];
          log := [Read; Write] |}) /\
    v = "Normal weight" /\
    x_eqb (num_of (JInt 70))
      (num_of (JFloat (Patient.weight (with_age (john "P001") 40)))) = true.
Proof.
  assert (Hval : Patient.validate (H := reference_platform)
                   (dict_set "id" (JStr "P001") john_stored)
                 = Ok (john "P001")) by (vm_compute; reflexivity).
  assert (Hb : Patient.bmi (H := reference_platform) (john "P001")
               = Ok (float_of_ratio 2286 100)) by (vm_compute; reflexivity).
  split; [split; assumption|].
  destruct (update_age_changes_only_age (H := reference_platform)
              "P001" john_stored [("P001", john_stored)] scenario_store
              (john "P001") (float_of_ratio 2286 100)
              eq_refl eq_refl Hval Hb) as (v & Hv & Hrun & _).
  exists v. split; [exact Hv|]. split; [exact Hrun|].
  split; [|vm_compute; reflexivity].
  assert (Hv' : Patient.verdict (H := reference_platform) (john "P001")
                = Ok "Normal weight") by (vm_compute; reflexivity).
  rewrite Hv in Hv'. now injection Hv'.
Defined.

(** C7 as stated fails: the record stored under "P009" is valid (its height
    2^-600 is positive, it validates to John Doe with that height), but the
    square of the height is zero, so that the update [{"age": 40}] raises a
    ZeroDivisionError while it computes the [bmi]; the storage has only
    been read and the stored age is still 30. *)
Lemma update_age_raises_without_bmi :
  Patient.validate (H := reference_platform)
    (dict_set "id" (JStr "P009") tiny_stored)
    = Ok (john_with_height tiny_height) /\
  update_patient (H := reference_platform) "P009" (age_only (Some 40))
    tiny_store = (Err ZeroDivisionError, accessed Read tiny_store) /\
  option_map (dict_get "P009") (file (accessed Read tiny_store))
    = Some (Some tiny_stored) /\
  dict_get "age" tiny_stored = Some (JInt 30).
Proof. repeat split; vm_compute; reflexivity. Qed.
